(** * TimeSliderChoropleth: the style-table builder and the repaint script

    A shallow embedding of [fp_covid19/visualization/time_slider_choropleth.py]:
    the Python constructor [TimeSliderChoropleth.__init__] (validation of the
    style dictionary, derivation of the sorted timestamp axis, the range check
    of [init_timestamp_index]) and the browser script of [_template] (the
    slider, [fill_map], the slider's [input] handler and the [mouseover] /
    [mouseout] handlers). *)

From Stdlib Require Import ZArith QArith_base String Ascii List DecimalString.
From stdpp Require Import base gmap strings list sorting.

Set Warnings "-register-all".

Open Scope string_scope.
Open Scope Z_scope.

(** ** Values

    The style dictionary is an arbitrary Python value on the constructor's
    side and, through [tojson], the same JSON value in the script.  Dictionary
    keys are strings (feature ids and timestamps); a dictionary keeps its
    insertion order, so it is an association list.  Numbers are only copied,
    never computed with, and are kept as rationals. *)

Inductive pyval : Type :=
| PyNone
| PyBool (b : bool)
| PyNum (q : Q)
| PyStr (s : string)
| PyDict (items : list (string * pyval)).

(** [isinstance(v, dict)] *)
Definition isinstance_dict (v : pyval) : bool :=
  match v with PyDict _ => true | _ => false end.

(** First binding of a key in a dictionary's item list. *)
Fixpoint assoc (k : string) (items : list (string * pyval)) : option pyval :=
  match items with
  | [] => None
  | (k', v) :: rest => if String.eqb k k' then Some v else assoc k rest
  end.

(** ** The order of [sorted] on strings

    Python compares [str] values code point by code point; on UTF-8 encoded
    strings that is the bytewise lexicographic order of [String.compare]. *)

Definition str_lt (s1 s2 : string) : Prop := String.ltb s1 s2 = true.

#[global] Instance str_lt_dec (s1 s2 : string) : Decision (str_lt s1 s2).
Proof. unfold str_lt. apply _. Defined.

(** [sorted(l)] for a list of strings. Python's sort is stable, and on a list
    without repetitions (the elements of a set) every sort for the same total
    order returns the same list. *)
Definition sorted (l : list string) : list string := merge_sort String.le l.

(** [str(n)] for an integer, as [str.format] renders a [{}] field. *)
Definition str_of_int (n : Z) : string := NilZero.string_of_int (Z.to_int n).

(** ** The constructor *)

Module Python.

Inductive exn : Type :=
| ValueError (msg : string)
| AssertionError (msg : string)
| AttributeError (msg : string).

(** The local variable [timestamps] of [__init__]: unbound, then a set, then
    rebound to the sorted list. *)
Inductive timestamps_var : Type :=
| Unbound
| BoundSet (s : gset string)
| BoundList (l : list string).

(** The attributes [__init__] assigns on [self], and its local [timestamps]. *)
Record frame : Type := Frame {
  self_timestamps : option (list string);
  self_styledict : option pyval;
  self_highlight : option bool;
  self_init_timestamp_index : option Z;
  timestamps : timestamps_var
}.

Definition fresh : frame :=
  {| self_timestamps := None; self_styledict := None; self_highlight := None;
     self_init_timestamp_index := None; timestamps := Unbound |}.

(** Statements run on a frame and either complete or raise; the frame reached
    when an exception is raised is kept. *)
Definition Py (A : Type) : Type := frame → (exn + A) * frame.

#[local] Instance Py_ret : MRet Py := λ A x fr, (inr x, fr).

#[local] Instance Py_bind : MBind Py := λ A B k m fr,
  match m fr with
  | (inl e, fr') => (inl e, fr')
  | (inr x, fr') => k x fr'
  end.

Definition raise {A} (e : exn) : Py A := λ fr, (inl e, fr).

Definition modify (g : frame → frame) : Py unit := λ fr, (inr tt, g fr).

Definition load_timestamps : Py timestamps_var := λ fr, (inr (timestamps fr), fr).

Definition with_timestamps (fr : frame) (v : timestamps_var) : frame :=
  {| self_timestamps := self_timestamps fr;
     self_styledict := self_styledict fr;
     self_highlight := self_highlight fr;
     self_init_timestamp_index := self_init_timestamp_index fr;
     timestamps := v |}.

Definition store_timestamps (v : timestamps_var) : Py unit :=
  modify (λ fr, with_timestamps fr v).

Definition set_self_timestamps (l : list string) : Py unit :=
  modify (λ fr, {| self_timestamps := Some l;
                   self_styledict := self_styledict fr;
                   self_highlight := self_highlight fr;
                   self_init_timestamp_index := self_init_timestamp_index fr;
                   timestamps := timestamps fr |}).

Definition set_self_styledict (v : pyval) : Py unit :=
  modify (λ fr, {| self_timestamps := self_timestamps fr;
                   self_styledict := Some v;
                   self_highlight := self_highlight fr;
                   self_init_timestamp_index := self_init_timestamp_index fr;
                   timestamps := timestamps fr |}).

Definition set_self_highlight (b : bool) : Py unit :=
  modify (λ fr, {| self_timestamps := self_timestamps fr;
                   self_styledict := self_styledict fr;
                   self_highlight := Some b;
                   self_init_timestamp_index := self_init_timestamp_index fr;
                   timestamps := timestamps fr |}).

Definition set_self_init_timestamp_index (i : Z) : Py unit :=
  modify (λ fr, {| self_timestamps := self_timestamps fr;
                   self_styledict := self_styledict fr;
                   self_highlight := self_highlight fr;
                   self_init_timestamp_index := Some i;
                   timestamps := timestamps fr |}).

(** [for x in l: body(x)] *)
Fixpoint for_ {A} (l : list A) (body : A → Py unit) : Py unit :=
  match l with
  | [] => mret tt
  | x :: rest => body x ;; for_ rest body
  end.

(** [v.values()] and [v.keys()]; only a dictionary has them. *)
Definition values (v : pyval) : Py (list pyval) :=
  match v with
  | PyDict items => mret (items.*2)
  | _ => raise (AttributeError "values")
  end.

Definition keys (v : pyval) : Py (list string) :=
  match v with
  | PyDict items => mret (items.*1)
  | _ => raise (AttributeError "keys")
  end.

(** [timestamps.update(set(ks))] *)
Definition timestamps_update (ks : list string) : Py unit :=
  t ← load_timestamps;
  match t with
  | BoundSet s => store_timestamps (BoundSet (s ∪ list_to_set ks))
  | _ => raise (AttributeError "update")
  end.

(** [timestamps = sorted(list(timestamps))] *)
Definition timestamps_sort : Py (list string) :=
  t ← load_timestamps;
  match t with
  | BoundSet s =>
      let l := sorted (elements s) in
      store_timestamps (BoundList l) ;; mret l
  | BoundList l =>
      let l' := sorted l in
      store_timestamps (BoundList l') ;; mret l'
  | Unbound => raise (AttributeError "timestamps")
  end.

(** [assert cond, msg] *)
Definition assert_ (cond : bool) (msg : string) : Py unit :=
  if cond then mret tt else raise (AssertionError msg).

Definition index_too_large_msg (i : Z) (n : Z) : string :=
  ("init_timestamp_index cannot be " ++ str_of_int i ++
   " since it is greater than the number of timestamps, which is " ++
   str_of_int n ++ ".")%string.

Definition index_too_small_msg (i : Z) : string :=
  ("When init_timestamp_index is negative, it must be in the range " ++
   "`[-len(timestamps), -1]` but got " ++ str_of_int i ++ " instead.")%string.

Section Init.

(** [repr] is Python's built-in; the constructor only splices its result
    into the messages of the two [ValueError]s. *)
Variable repr : pyval → string.

Definition not_a_dict_msg (v : pyval) : string :=
  ("styledict must be a dictionary, got " ++ repr v)%string.

Definition item_not_a_dict_msg (v : pyval) : string :=
  ("Each item in styledict must be a dictionary, got " ++ repr v)%string.

(** The body of the loop over [styledict.values()] that checks each item. *)
Definition check_item (val : pyval) : Py unit :=
  if negb (isinstance_dict val)
  then raise (ValueError (item_not_a_dict_msg val)) else mret tt.

(** [TimeSliderChoropleth.__init__], from the first check of [styledict] on.
    The call of the base class and [GeoJson.process_data] before it belong to
    the map library and do not touch the attributes below. *)
Definition __init__ (styledict : pyval) (init_timestamp_index : Z)
    (highlight : bool) : Py unit :=
  (if negb (isinstance_dict styledict)
   then raise (ValueError (not_a_dict_msg styledict)) else mret tt) ;;
  vals ← values styledict;
  for_ vals check_item ;;
  store_timestamps (BoundSet ∅) ;;
  vals ← values styledict;
  for_ vals (λ feature, ks ← keys feature; timestamps_update ks) ;;
  ts ← timestamps_sort;
  set_self_timestamps ts ;;
  set_self_styledict styledict ;;
  set_self_highlight highlight ;;
  (if 0 <=? init_timestamp_index
   then assert_ (init_timestamp_index <? Z.of_nat (length ts))
          (index_too_large_msg init_timestamp_index (Z.of_nat (length ts)))
   else assert_ (- Z.of_nat (length ts) <=? init_timestamp_index)
          (index_too_small_msg init_timestamp_index)) ;;
  set_self_init_timestamp_index init_timestamp_index.

End Init.

End Python.

(** ** The script

    [_template] renders to a script that runs once when the page loads and
    leaves three handlers behind.  The page state it works on is the global
    [current_timestamp], the slider, the text of the output element and the
    paths Leaflet drew for the GeoJSON features. *)

Module Script.

Inductive js_error : Type :=
| TypeError.

(** An SVG path: the presentation attributes the script sets, and the one
    inline style property it sets.  [None] is an attribute or property that
    is not there. *)
Record path : Type := Path {
  attr_fill : option pyval;
  attr_fill_opacity : option pyval;
  attr_stroke : option pyval;
  attr_stroke_width : option pyval;
  attr_stroke_dasharray : option pyval;
  style_fill_opacity : option pyval
}.

(** A style property wins over the presentation attribute of the same name. *)
Definition rendered_fill_opacity (p : path) : option pyval :=
  match style_fill_opacity p with
  | Some v => Some v
  | None => attr_fill_opacity p
  end.

Definition rendered_fill (p : path) : option pyval := attr_fill p.

(** The range input the script inserts: [min], [max], [value] and [step]. *)
Record range_input : Type := RangeInput {
  attr_min : Z;
  attr_max : Z;
  attr_value : option string;
  attr_step : string
}.

(** The page: paths are listed with their element id. *)
Record page : Type := Page {
  current_timestamp : option string;
  slider : option range_input;
  slider_value_text : option string;
  paths : list (string * path)
}.

Definition JS (A : Type) : Type := page → (js_error + A) * page.

#[local] Instance JS_ret : MRet JS := λ A x pg, (inr x, pg).

#[local] Instance JS_bind : MBind JS := λ A B k m pg,
  match m pg with
  | (inl e, pg') => (inl e, pg')
  | (inr x, pg') => k x pg'
  end.

Definition throw {A} (e : js_error) : JS A := λ pg, (inl e, pg).

Definition lift {A} (r : js_error + A) : JS A := λ pg, (r, pg).

Definition read_current_timestamp : JS (option string) :=
  λ pg, (inr (current_timestamp pg), pg).

Definition write_current_timestamp (t : option string) : JS unit :=
  λ pg, (inr tt, {| current_timestamp := t; slider := slider pg;
                    slider_value_text := slider_value_text pg;
                    paths := paths pg |}).

Definition write_slider (s : range_input) : JS unit :=
  λ pg, (inr tt, {| current_timestamp := current_timestamp pg; slider := Some s;
                    slider_value_text := slider_value_text pg;
                    paths := paths pg |}).

Definition write_slider_value_text (s : string) : JS unit :=
  λ pg, (inr tt, {| current_timestamp := current_timestamp pg; slider := slider pg;
                    slider_value_text := Some s;
                    paths := paths pg |}).

Definition write_paths (g : list (string * path) → list (string * path)) : JS unit :=
  λ pg, (inr tt, {| current_timestamp := current_timestamp pg; slider := slider pg;
                    slider_value_text := slider_value_text pg;
                    paths := g (paths pg) |}).

(** [for (var k in o) body(k)], given the keys. *)
Fixpoint for_in (ks : list string) (body : string → JS unit) : JS unit :=
  match ks with
  | [] => mret tt
  | k :: rest => body k ;; for_in rest body
  end.

(** A value used as a property key: [undefined] becomes the key "undefined". *)
Definition property_key (v : option string) : string :=
  match v with Some s => s | None => "undefined" end.

(** [a[i]] on an array, [undefined] outside of it. *)
Definition js_index (a : list string) (i : Z) : option string :=
  if i <? 0 then None else a !! Z.to_nat i.

(** [o[k]]: reading a property of [undefined] or [null] throws; an object
    gives the property or [undefined]; the other values have no property of
    the names used here.  Only an object's own properties are modelled: for
    a key that names a member of [Object.prototype] (see
    [object_prototype_names] below) JavaScript finds the inherited member. *)
Definition js_get (o : option pyval) (k : string) : js_error + option pyval :=
  match o with
  | None | Some PyNone => inl TypeError
  | Some (PyDict items) => inr (assoc k items)
  | Some _ => inr None
  end.

(** [k in o]: throws unless [o] is an object. *)
Definition js_in (k : string) (o : option pyval) : js_error + bool :=
  match o with
  | Some (PyDict items) => inr (bool_decide (is_Some (assoc k items)))
  | _ => inl TypeError
  end.

(** The own enumerable property names of an object. *)
Definition js_keys (o : pyval) : list string :=
  match o with PyDict items => items.*1 | _ => [] end.

(** d3's [.attr(name, v)] and [.style(name, v)] remove the attribute or the
    property when [v] is [null] or [undefined]. *)
Definition d3_value (v : option pyval) : option pyval :=
  match v with
  | Some PyNone => None
  | _ => v
  end.

Definition set_attr_fill (v : option pyval) (p : path) : path :=
  {| attr_fill := d3_value v; attr_fill_opacity := attr_fill_opacity p;
     attr_stroke := attr_stroke p; attr_stroke_width := attr_stroke_width p;
     attr_stroke_dasharray := attr_stroke_dasharray p;
     style_fill_opacity := style_fill_opacity p |}.

Definition set_style_fill_opacity (v : option pyval) (p : path) : path :=
  {| attr_fill := attr_fill p; attr_fill_opacity := attr_fill_opacity p;
     attr_stroke := attr_stroke p; attr_stroke_width := attr_stroke_width p;
     attr_stroke_dasharray := attr_stroke_dasharray p;
     style_fill_opacity := d3_value v |}.

(** The four [.attr] calls on [d3.selectAll('path')]. *)
Definition baseline (p : path) : path :=
  {| attr_fill := attr_fill p;
     attr_fill_opacity := Some (PyNum 0);
     attr_stroke := Some (PyStr "white");
     attr_stroke_width := Some (PyNum (4 # 5));
     attr_stroke_dasharray := Some (PyStr "5,5");
     style_fill_opacity := style_fill_opacity p |}.

(** [d3.selectAll('#' + id)] followed by setters [g]: every element with
    that id is changed, and no other.  This is what the selector means when
    [id] is a CSS identifier (see [css_name] below); with a space, a dot, a
    comma and the like in it the string is another selector, or none. *)
Definition restyle (id : string) (g : path → path) (els : list (string * path))
    : list (string * path) :=
  map (λ el, if String.eqb (fst el) id then (fst el, g (snd el)) else el) els.

Definition select_all (id : string) (g : path → path) : JS unit :=
  write_paths (restyle id g).

(** A command that writes nothing but paths. *)
Definition only_paths {A} (m : JS A) : Prop :=
  ∀ pg, current_timestamp (snd (m pg)) = current_timestamp pg ∧
        slider (snd (m pg)) = slider pg ∧
        slider_value_text (snd (m pg)) = slider_value_text pg.

Definition feature_element_id (feature_id : string) : string :=
  ("feature-" ++ feature_id)%string.

Section Template.

(** What the template splices into the script. *)
Variable timestamps : list string.
Variable styledict : pyval.
Variable init_timestamp_index : Z.
Variable highlight : bool.

(** [new Date(parseInt(t)*1000).toDateString()], the browser's. *)
Variable datestring : option string → string.

Definition fill_map : JS unit :=
  for_in (js_keys styledict) (λ feature_id,
    style ← lift (js_get (Some styledict) feature_id);
    let fillColor := Some (PyStr "white") in
    let opacity := Some (PyNum 0) in
    t ← read_current_timestamp;
    present ← lift (js_in (property_key t) style);
    if (present : bool) then
      entry ← lift (js_get style (property_key t));
      fillColor ← lift (js_get entry "color");
      entry ← lift (js_get style (property_key t));
      opacity ← lift (js_get entry "opacity");
      select_all (feature_element_id feature_id)
        (λ p, set_style_fill_opacity opacity (set_attr_fill fillColor p))
    else mret tt).

(** The slider's [input] handler; [value] is [this.value]. *)
Definition on_input (value : Z) : JS unit :=
  write_current_timestamp (js_index timestamps value) ;;
  t ← read_current_timestamp;
  write_slider_value_text (datestring t) ;;
  fill_map.

Definition mouseout (feature_id : string) : JS unit :=
  t ← read_current_timestamp;
  style ← lift (js_get (Some styledict) feature_id);
  present ← lift (js_in (property_key t) style);
  if (present : bool) then
    entry ← lift (js_get style (property_key t));
    opacity ← lift (js_get entry "opacity");
    select_all (feature_element_id feature_id) (set_style_fill_opacity opacity)
  else mret tt.

Definition mouseover (feature_id : string) : JS unit :=
  t ← read_current_timestamp;
  style ← lift (js_get (Some styledict) feature_id);
  present ← lift (js_in (property_key t) style);
  if (present : bool) then
    select_all (feature_element_id feature_id)
      (set_style_fill_opacity (Some (PyNum 1)))
  else mret tt.

(** The events of a page session. *)
Inductive event : Type :=
| Input (value : Z)
| MouseOver (feature_id : string)
| MouseOut (feature_id : string)
| Click (feature_id : string).

(** [_onEachFeature], which the script defines when [highlight] is set: the
    listeners it would put on the layer of a feature.  [click] asks the map
    to fit its bounds and leaves the page state alone. *)
Definition onEachFeature : option (event → JS unit) :=
  if highlight
  then Some (λ ev, match ev with
                   | MouseOver feature_id => mouseover feature_id
                   | MouseOut feature_id => mouseout feature_id
                   | _ => mret tt
                   end)
  else None.

(** The listeners of the GeoJSON layer.  The script calls [L.geoJson] with
    the data alone: the function defined as [_onEachFeature] is passed to
    nothing, and no feature gets a listener. *)
Definition geoJson_listeners (defined : option (event → JS unit))
    : option (event → JS unit) := None.

Definition handle (ev : event) : JS unit :=
  match ev with
  | Input value => on_input value
  | _ =>
      match geoJson_listeners onEachFeature with
      | Some listener => listener ev
      | None => mret tt
      end
  end.

(** A handler that throws ends there; the page keeps what it had written. *)
Definition dispatch (ev : event) (pg : page) : page := snd (handle ev pg).

Definition session (evs : list event) (pg : page) : page :=
  fold_left (λ pg ev, dispatch ev pg) evs pg.

Definition initial_timestamp : option string :=
  if 0 <=? init_timestamp_index
  then js_index timestamps init_timestamp_index
  else js_index timestamps (Z.of_nat (length timestamps) + init_timestamp_index).

(** The script body at page load. [drawn] lists, per GeoJSON feature, its id
    and the path Leaflet drew for it; [eachLayer] gives each path its id. *)
Definition script (drawn : list (string * path)) : JS unit :=
  write_current_timestamp initial_timestamp ;;
  t ← read_current_timestamp;
  write_slider {| attr_min := 0;
                  attr_max := Z.of_nat (length timestamps) - 1;
                  attr_value := t;
                  attr_step := "1" |} ;;
  write_slider_value_text (datestring t) ;;
  write_paths (λ _, map (λ d, (feature_element_id (fst d), snd d)) drawn) ;;
  write_paths (map (λ el, (fst el, baseline (snd el)))) ;;
  fill_map.

End Template.

Definition blank : page :=
  {| current_timestamp := None; slider := None; slider_value_text := None;
     paths := [] |}.

(** The page after loading the script. *)
Definition load (timestamps : list string) (styledict : pyval)
    (init_timestamp_index : Z) (datestring : option string → string)
    (drawn : list (string * path)) : page :=
  snd (script timestamps styledict init_timestamp_index datestring drawn blank).

End Script.

(** ** The worked example of the style table *)

Module Example.

Definition styledict : pyval :=
  PyDict
    [("A", PyDict [("100", PyDict [("color", PyStr "red");
                                   ("opacity", PyNum (1 # 2))])]);
     ("B", PyDict [("200", PyDict [("color", PyStr "blue");
                                   ("opacity", PyNum (4 # 5))])])].

Definition timestamps : list string := ["100"; "200"].

(** A path as Leaflet draws a polygon with its default options. *)
Definition leaflet_path : Script.path :=
  {| Script.attr_fill := Some (PyStr "#3388ff");
     Script.attr_fill_opacity := Some (PyNum (1 # 5));
     Script.attr_stroke := Some (PyStr "#3388ff");
     Script.attr_stroke_width := Some (PyNum 3);
     Script.attr_stroke_dasharray := None;
     Script.style_fill_opacity := None |}.

Definition drawn : list (string * Script.path) :=
  [("A", leaflet_path); ("B", leaflet_path)].

Definition datestring (t : option string) : string :=
  match t with Some s => s | None => "Invalid Date" end.

Definition repr (v : pyval) : string :=
  match v with
  | PyStr s => ("'" ++ s ++ "'")%string
  | PyNone => "None"
  | _ => "..."
  end.

(** A table with one feature and one timestamp, and a page with its path. *)
Definition one_feature : list (string * pyval) :=
  [("A", PyDict [("100", PyDict [("color", PyStr "red");
                                 ("opacity", PyNum (1 # 2))])])].

Definition one_path : Script.page :=
  {| Script.current_timestamp := None; Script.slider := None;
     Script.slider_value_text := None;
     Script.paths := [(Script.feature_element_id "A", leaflet_path)] |}.

(** The same page with "100" as the current timestamp. *)
Definition one_page : Script.page :=
  {| Script.current_timestamp := Some "100"; Script.slider := None;
     Script.slider_value_text := None;
     Script.paths := [(Script.feature_element_id "A", leaflet_path)] |}.

(** The page once loaded with the slider at index 0. *)
Definition loaded : Script.page :=
  Script.load timestamps styledict 0 datestring drawn.

Definition session (evs : list Script.event) : Script.page :=
  Script.session timestamps styledict true datestring evs loaded.

(** The path of a feature on a page. *)
Definition path_of (feature_id : string) (pg : Script.page) : option Script.path :=
  snd <$> find (λ el, String.eqb (fst el) (Script.feature_element_id feature_id))
               (Script.paths pg).

(** What is painted for a feature: fill colour and fill opacity. *)
Definition painted (feature_id : string) (pg : Script.page)
    : option (option pyval * option pyval) :=
  (λ p, (Script.rendered_fill p, Script.rendered_fill_opacity p))
    <$> path_of feature_id pg.

(** Whether a feature has an entry at the page's current timestamp. *)
Definition has_entry (feature_id : string) (pg : Script.page)
    : Script.js_error + bool :=
  match Script.js_get (Some styledict) feature_id with
  | inl e => inl e
  | inr style =>
      Script.js_in (Script.property_key (Script.current_timestamp pg)) style
  end.

End Example.

(** ** What the constructor derives *)

(** The timestamp keys of one feature's mapping, and of all of them. *)
Definition feature_keys (v : pyval) : gset string :=
  match v with
  | PyDict feature => list_to_set (feature.*1)
  | _ => ∅
  end.

Definition timestamp_keys (items : list (string * pyval)) : gset string :=
  ⋃ (feature_keys <$> items.*2).

Definition timestamp_axis (items : list (string * pyval)) : list string :=
  sorted (elements (timestamp_keys items)).

(** The frame after the three attribute assignments that follow the
    derivation, before the range check. *)
Definition built (items : list (string * pyval)) (highlight : bool) : Python.frame :=
  {| Python.self_timestamps := Some (timestamp_axis items);
     Python.self_styledict := Some (PyDict items);
     Python.self_highlight := Some highlight;
     Python.self_init_timestamp_index := None;
     Python.timestamps := Python.BoundList (timestamp_axis items) |}.

(** The frame of a construction that completed. *)
Definition completed (items : list (string * pyval)) (highlight : bool) (i : Z)
    : Python.frame :=
  {| Python.self_timestamps := Some (timestamp_axis items);
     Python.self_styledict := Some (PyDict items);
     Python.self_highlight := Some highlight;
     Python.self_init_timestamp_index := Some i;
     Python.timestamps := Python.BoundList (timestamp_axis items) |}.

(** [needle] occurs in [s]. *)
Definition contains (needle s : string) : Prop :=
  ∃ pre post, s = (pre ++ needle ++ post)%string.

(** ** What a repaint does to the paths *)

(** [entry[k]] for a style entry that is not [null]: the property of an
    object, [undefined] on any other value. *)
Definition entry_prop (entry : pyval) (k : string) : option pyval :=
  match entry with PyDict e => assoc k e | _ => None end.

(** The two setters [fill_map] chains on the paths of a feature. *)
Definition paint (entry : pyval) (p : Script.path) : Script.path :=
  Script.set_style_fill_opacity (entry_prop entry "opacity")
    (Script.set_attr_fill (entry_prop entry "color") p).

(** What one pass of [fill_map] does to a path of feature [feature_id] when
    the current timestamp, as a key, is [key]. *)
Definition paint_path (items : list (string * pyval)) (key feature_id : string)
    (p : Script.path) : Script.path :=
  match assoc feature_id items with
  | Some (PyDict style) =>
      match assoc key style with
      | Some entry => paint entry p
      | None => p
      end
  | _ => p
  end.

(** One round of the loop of [fill_map] on the list of paths. *)
Definition paint_feature (items : list (string * pyval)) (key feature_id : string)
    (els : list (string * Script.path)) : list (string * Script.path) :=
  Script.restyle (Script.feature_element_id feature_id)
    (paint_path items key feature_id) els.

(** A page with other paths. *)
Definition with_paths (pg : Script.page) (els : list (string * Script.path))
    : Script.page :=
  {| Script.current_timestamp := Script.current_timestamp pg;
     Script.slider := Script.slider pg;
     Script.slider_value_text := Script.slider_value_text pg;
     Script.paths := els |}.

(** Every feature maps to a dictionary, and none of them maps [key] to
    [null]: the tables on which no property read of [fill_map] throws. *)
Definition table_ok (items : list (string * pyval)) (key : string) : Prop :=
  ∀ feature_id v, (feature_id, v) ∈ items →
    ∃ style, v = PyDict style ∧ assoc key style ≠ Some PyNone.

(** Two paths that differ at most in the fill attribute and the fill-opacity
    style property. *)
Definition same_but_fill (p p' : Script.path) : Prop :=
  Script.attr_fill_opacity p' = Script.attr_fill_opacity p ∧
  Script.attr_stroke p' = Script.attr_stroke p ∧
  Script.attr_stroke_width p' = Script.attr_stroke_width p ∧
  Script.attr_stroke_dasharray p' = Script.attr_stroke_dasharray p.

(** Two lists of paths with the same ids in the same places, whose paths
    differ at most in their fill. *)
Definition repainted (els els' : list (string * Script.path)) : Prop :=
  Forall2 (λ el el', fst el' = fst el ∧ same_but_fill (snd el) (snd el')) els els'.

(** A command that at most repaints, whether it completes or throws. *)
Definition repaints_only {A} (m : Script.JS A) : Prop :=
  ∀ pg, repainted (Script.paths pg) (Script.paths (snd (m pg))).

(** ** Where the model of the script applies *)

(** The characters of a CSS identifier after its first: letters, digits,
    underscore, hyphen, and everything beyond ASCII. *)
Definition css_name_char (c : ascii) : bool :=
  let n := nat_of_ascii c in
  ((48 <=? n) && (n <=? 57) || (65 <=? n) && (n <=? 90) ||
   (97 <=? n) && (n <=? 122) || (n =? 95) || (n =? 45) || (128 <=? n))%nat.

(** A feature id [s] for which ['#feature-' + s] is the id selector of
    ['feature-' + s]. *)
Fixpoint css_name (s : string) : bool :=
  match s with
  | EmptyString => true
  | String c rest => css_name_char c && css_name rest
  end.

(** The names of the members of [Object.prototype]. *)
Definition object_prototype_names : list string :=
  ["constructor"; "__defineGetter__"; "__defineSetter__"; "hasOwnProperty";
   "__lookupGetter__"; "__lookupSetter__"; "isPrototypeOf";
   "propertyIsEnumerable"; "toString"; "valueOf"; "__proto__";
   "toLocaleString"].

(** A key that no object inherits. *)
Definition own_only (k : string) : bool :=
  negb (existsb (String.eqb k) object_prototype_names).

(** A feature id on which the model of the selector and of the property
    reads is the script's behaviour. *)
Definition plain_id (k : string) : bool := css_name k && own_only k.

(** Whether a character occurs in a string. *)
Fixpoint occurs (c : ascii) (s : string) : bool :=
  match s with
  | EmptyString => false
  | String c' rest => Ascii.eqb c c' || occurs c rest
  end.

(** The position in the axis an accepted initial index stands for. *)
Definition resolved_index (n i : Z) : Z := if 0 <=? i then i else n + i.

(** * Facts about the string order *)

Lemma string_compare_refl (s : string) : String.compare s s = Eq.
Proof.
  induction s as [|a s IH]; simpl; [done|].
  unfold Ascii.compare. by rewrite N.compare_refl.
Qed.

Lemma str_le_lt_or_eq (s1 s2 : string) : String.le s1 s2 ↔ str_lt s1 s2 ∨ s1 = s2.
Proof.
  unfold String.le, str_lt, String.leb, String.ltb. split.
  - destruct (String.compare s1 s2) eqn:Hc; try done; [|by left].
    right. by apply String.compare_eq_iff.
  - intros [H| ->]; [by destruct (String.compare s1 s2)|].
    by rewrite string_compare_refl.
Qed.

Lemma str_lt_irrefl (s : string) : ¬ str_lt s s.
Proof. unfold str_lt, String.ltb. by rewrite string_compare_refl. Qed.

(** Sorting a list without repetitions gives a strictly ascending list. *)
Lemma sorted_strict (l : list string) : NoDup l → StronglySorted str_lt (sorted l).
Proof.
  intros Hnd.
  assert (NoDup (sorted l)) as Hnd'.
  { unfold sorted. by rewrite merge_sort_Permutation. }
  assert (StronglySorted String.le (sorted l)) as Hs.
  { apply StronglySorted_merge_sort; apply _. }
  induction Hs as [|x l' Hs IH Hall]; [constructor|].
  apply NoDup_cons in Hnd' as [Hx Hnd']. constructor; [by apply IH|].
  rewrite Forall_forall in Hall |- *. intros y Hy.
  destruct (proj1 (str_le_lt_or_eq x y) (Hall y Hy)) as [?| ->]; done.
Qed.

Lemma elem_of_sorted (l : list string) (t : string) : t ∈ sorted l ↔ t ∈ l.
Proof. unfold sorted. by rewrite merge_sort_Permutation. Qed.

Lemma length_sorted (l : list string) : length (sorted l) = length l.
Proof. unfold sorted. by rewrite merge_sort_Permutation. Qed.

(** * The constructor, step by step *)

Section InitFacts.

Import Python.

#[local] Existing Instance Py_ret.
#[local] Existing Instance Py_bind.

Variable repr : pyval → string.

Ltac py_unfold :=
  unfold mbind, mret, Py_bind, Py_ret, raise, modify, store_timestamps,
    load_timestamps, set_self_timestamps, set_self_styledict,
    set_self_highlight, set_self_init_timestamp_index, assert_.

Lemma bind_run {A B} (m : Py A) (k : A → Py B) (fr fr' : frame) (x : A) :
  m fr = (inr x, fr') → (m ≫= k) fr = k x fr'.
Proof. intros H. unfold mbind, Py_bind. by rewrite H. Qed.

Lemma bind_raise {A B} (m : Py A) (k : A → Py B) (fr fr' : frame) (e : exn) :
  m fr = (inl e, fr') → (m ≫= k) fr = (inl e, fr').
Proof. intros H. unfold mbind, Py_bind. by rewrite H. Qed.

(** The validation loop passes over dictionaries without touching the frame. *)
Lemma check_items_pass (vals : list pyval) (fr : frame) :
  Forall (λ v, isinstance_dict v = true) vals →
  for_ vals (check_item repr) fr = (inr tt, fr).
Proof.
  induction 1 as [|v vals Hv _ IH]; simpl; [done|].
  py_unfold. unfold check_item at 1. rewrite Hv. simpl. apply IH.
Qed.

(** It raises at the first value that is not a dictionary. *)
Lemma check_items_raise (vals : list pyval) (v : pyval) (fr : frame) :
  find (λ v, negb (isinstance_dict v)) vals = Some v →
  for_ vals (check_item repr) fr
  = (inl (ValueError (item_not_a_dict_msg repr v)), fr).
Proof.
  induction vals as [|w vals IH]; simpl; [done|].
  py_unfold. unfold check_item at 1.
  destruct (isinstance_dict w) eqn:Hw; simpl.
  - apply IH.
  - by intros [= ->].
Qed.

(** The accumulation loop adds every feature's keys to the set. *)
Lemma update_loop (vals : list pyval) (s : gset string) (fr : frame) :
  Forall (λ v, isinstance_dict v = true) vals →
  timestamps fr = BoundSet s →
  for_ vals (λ feature, ks ← keys feature; timestamps_update ks) fr
  = (inr tt, with_timestamps fr (BoundSet (s ∪ ⋃ (feature_keys <$> vals)))).
Proof.
  intros Hall. revert s fr.
  induction Hall as [|v vals Hv _ IH]; intros s fr Hfr; simpl.
  - py_unfold. rewrite union_empty_r_L. destruct fr; simpl in *; by subst.
  - destruct v as [| | | |feature]; try done.
    py_unfold. unfold keys, timestamps_update. py_unfold. simpl. rewrite Hfr.
    simpl. erewrite IH; [|done]. unfold with_timestamps. simpl.
    by rewrite (assoc_L (∪)).
Qed.

(** Sorting rebinds the local to the sorted list of the set's elements. *)
Lemma timestamps_sort_run (s : gset string) (fr : frame) :
  timestamps fr = BoundSet s →
  timestamps_sort fr
  = (inr (sorted (elements s)), with_timestamps fr (BoundList (sorted (elements s)))).
Proof.
  intros H. unfold timestamps_sort. py_unfold. by rewrite H.
Qed.

(** On a dictionary of dictionaries the constructor reaches the range check
    with the derived axis, and the check decides the outcome. *)
Lemma init_valid (items : list (string * pyval)) (i : Z) (highlight : bool) :
  Forall (λ v, isinstance_dict v = true) (items.*2) →
  let n := Z.of_nat (length (timestamp_axis items)) in
  __init__ repr (PyDict items) i highlight fresh =
    if 0 <=? i
    then if i <? n
         then (inr tt, completed items highlight i)
         else (inl (AssertionError (index_too_large_msg i n)), built items highlight)
    else if - n <=? i
         then (inr tt, completed items highlight i)
         else (inl (AssertionError (index_too_small_msg i)), built items highlight).
Proof.
  intros Hall n. unfold __init__. simpl.
  erewrite bind_run by reflexivity.
  erewrite bind_run by reflexivity.
  erewrite bind_run by (by apply check_items_pass).
  erewrite bind_run by reflexivity.
  erewrite bind_run by reflexivity.
  erewrite bind_run by (by apply update_loop).
  rewrite union_empty_l_L. fold (timestamp_keys items).
  erewrite bind_run by (by apply timestamps_sort_run).
  fold (timestamp_axis items). fold n.
  do 3 (erewrite bind_run by reflexivity).
  py_unfold. simpl.
  unfold built, completed.
  destruct (0 <=? i); [destruct (i <? n)|destruct (- n <=? i)]; reflexivity.
Qed.

(** Anything but a dictionary is refused at once. *)
Lemma init_not_a_dict (styledict : pyval) (i : Z) (highlight : bool) (fr : frame) :
  isinstance_dict styledict = false →
  __init__ repr styledict i highlight fr
  = (inl (ValueError (not_a_dict_msg repr styledict)), fr).
Proof. intros H. unfold __init__. rewrite H. reflexivity. Qed.

(** A dictionary with a value that is not one is refused in the first loop. *)
Lemma init_item_not_a_dict (items : list (string * pyval)) (v : pyval) (i : Z)
    (highlight : bool) (fr : frame) :
  find (λ v, negb (isinstance_dict v)) (items.*2) = Some v →
  __init__ repr (PyDict items) i highlight fr
  = (inl (ValueError (item_not_a_dict_msg repr v)), fr).
Proof.
  intros H. unfold __init__. simpl.
  erewrite bind_run by reflexivity.
  erewrite bind_run by reflexivity.
  by erewrite bind_raise by (by apply check_items_raise).
Qed.

End InitFacts.

(** * Facts about the derived axis *)

Lemma string_append_assoc (s1 s2 s3 : string) :
  ((s1 ++ s2) ++ s3 = s1 ++ (s2 ++ s3))%string.
Proof.
  induction s1 as [|a s1 IH]; [done|].
  apply (f_equal (String a)) in IH. exact IH.
Qed.

Lemma contains_here (pre needle post : string) :
  contains needle (pre ++ needle ++ post)%string.
Proof. by exists pre, post. Qed.

Lemma contains_append_l (needle pre s : string) :
  contains needle s → contains needle (pre ++ s)%string.
Proof.
  intros (p & q & ->). exists (pre ++ p)%string, q.
  by rewrite string_append_assoc.
Qed.

Lemma string_append_nil_r (s : string) : (s ++ "")%string = s.
Proof.
  induction s as [|a s IH]; [done|].
  apply (f_equal (String a)) in IH. exact IH.
Qed.

Lemma contains_end (pre needle : string) : contains needle (pre ++ needle)%string.
Proof. exists pre, "". by rewrite string_append_nil_r. Qed.

Lemma find_not_dict_exists (vals : list pyval) :
  Exists (λ v, isinstance_dict v = false) vals →
  is_Some (find (λ v, negb (isinstance_dict v)) vals).
Proof.
  induction 1 as [v vals Hv|v vals _ IH]; simpl.
  - rewrite Hv. by eexists.
  - destruct (negb (isinstance_dict v)); [by eexists|done].
Qed.

Lemma find_not_dict_none (vals : list pyval) :
  find (λ v, negb (isinstance_dict v)) vals = None ↔
  Forall (λ v, isinstance_dict v = true) vals.
Proof.
  induction vals as [|v vals IH]; simpl; [by split; [constructor|]|].
  destruct (isinstance_dict v) eqn:Hv; simpl.
  - rewrite IH. split; [by constructor|by inversion 1].
  - split; [done|]. inversion 1; congruence.
Qed.

Lemma find_not_dict_some (vals : list pyval) (v : pyval) :
  find (λ v, negb (isinstance_dict v)) vals = Some v →
  v ∈ vals ∧ isinstance_dict v = false.
Proof.
  induction vals as [|w vals IH]; simpl; [done|].
  destruct (isinstance_dict w) eqn:Hw; simpl.
  - intros H. destruct (IH H). split; [by right|done].
  - intros [= <-]. split; [by left|done].
Qed.

Lemma elem_of_timestamp_keys (items : list (string * pyval)) (t : string) :
  t ∈ timestamp_keys items ↔
  ∃ fid feature entry, (fid, PyDict feature) ∈ items ∧ (t, entry) ∈ feature.
Proof.
  unfold timestamp_keys. rewrite elem_of_union_list. split.
  - intros (X & HX & Ht).
    apply list_elem_of_fmap in HX as (v & -> & Hv).
    apply list_elem_of_fmap in Hv as ([fid v'] & -> & Hin). simpl in Ht.
    destruct v' as [| | | |feature]; simpl in Ht; try by apply not_elem_of_empty in Ht.
    apply elem_of_list_to_set, list_elem_of_fmap in Ht as ([t' entry] & -> & Hin').
    by exists fid, feature, entry.
  - intros (fid & feature & entry & Hin & Hin').
    exists (feature_keys (PyDict feature)). split.
    + apply list_elem_of_fmap. exists (PyDict feature). split; [done|].
      apply list_elem_of_fmap. by exists (fid, PyDict feature).
    + simpl. apply elem_of_list_to_set, list_elem_of_fmap. by exists (t, entry).
Qed.

Lemma timestamp_keys_perm (items items' : list (string * pyval)) :
  items' ≡ₚ items → timestamp_keys items' = timestamp_keys items.
Proof.
  intros Hp. apply set_eq. intros t. rewrite !elem_of_timestamp_keys.
  by setoid_rewrite Hp.
Qed.

Lemma timestamp_axis_strict (items : list (string * pyval)) :
  StronglySorted str_lt (timestamp_axis items).
Proof. apply sorted_strict, NoDup_elements. Qed.

Lemma elem_of_timestamp_axis (items : list (string * pyval)) (t : string) :
  t ∈ timestamp_axis items ↔ t ∈ timestamp_keys items.
Proof. unfold timestamp_axis. by rewrite elem_of_sorted, elem_of_elements. Qed.

(** The constructor sets [self.timestamps] exactly when both checks of
    [styledict] pass, and then to the derived axis. *)
Lemma init_self_timestamps (repr : pyval → string) (styledict : pyval) (i : Z)
    (highlight : bool) (ts : list string) :
  Python.self_timestamps
    (snd (Python.__init__ repr styledict i highlight Python.fresh)) = Some ts ↔
  ∃ items, styledict = PyDict items ∧
    Forall (λ v, isinstance_dict v = true) (items.*2) ∧ ts = timestamp_axis items.
Proof.
  split.
  - destruct (isinstance_dict styledict) eqn:Hd.
    + destruct styledict as [| | | |items]; try done.
      destruct (find (λ v, negb (isinstance_dict v)) (items.*2)) as [v|] eqn:Hf.
      * by rewrite (init_item_not_a_dict repr items v).
      * apply find_not_dict_none in Hf. rewrite init_valid by done.
        intros H. exists items. split; [done|]. split; [done|].
        by destruct (0 <=? i);
          [destruct (i <? _)|destruct (- _ <=? i)]; simpl in H; injection H.
    + by rewrite init_not_a_dict.
  - intros (items & -> & Hall & ->). rewrite init_valid by done.
    by destruct (0 <=? i); [destruct (i <? _)|destruct (- _ <=? i)].
Qed.

(** * The claims about the constructor *)

(** C6. When the constructor accepts the style dictionary, [self.timestamps]
    is strictly ascending in the plain string order (sorted, and without
    repetition), holds exactly the timestamp keys that occur in some
    feature's mapping, and is the same for any other order of the features. *)
Theorem C6_timestamp_axis (repr : pyval → string) (styledict : pyval) (i : Z)
    (highlight : bool) (ts : list string) :
  Python.self_timestamps
    (snd (Python.__init__ repr styledict i highlight Python.fresh)) = Some ts →
  ∃ items, styledict = PyDict items ∧
    StronglySorted str_lt ts ∧
    (∀ t, t ∈ ts ↔
       ∃ fid feature entry, (fid, PyDict feature) ∈ items ∧ (t, entry) ∈ feature) ∧
    (∀ items', items' ≡ₚ items →
       Python.self_timestamps
         (snd (Python.__init__ repr (PyDict items') i highlight Python.fresh))
       = Some ts).
Proof.
  intros (items & -> & Hall & ->)%init_self_timestamps.
  exists items. split; [done|]. split; [apply timestamp_axis_strict|]. split.
  - intros t. by rewrite elem_of_timestamp_axis, elem_of_timestamp_keys.
  - intros items' Hp. apply init_self_timestamps. exists items'.
    split; [done|]. split; [by rewrite Hp|].
    unfold timestamp_axis. by rewrite (timestamp_keys_perm items items').
Qed.

Lemma C6_timestamp_axis_witness :
  Python.self_timestamps
    (snd (Python.__init__ Example.repr Example.styledict 0 true Python.fresh))
  = Some ["100"; "200"] ∧
  StronglySorted str_lt ["100"; "200"].
Proof.
  assert (Python.self_timestamps
    (snd (Python.__init__ Example.repr Example.styledict 0 true Python.fresh))
    = Some ["100"; "200"]) as H by (vm_compute; reflexivity).
  split; [exact H|].
  destruct (C6_timestamp_axis Example.repr Example.styledict 0 true _ H)
    as (items & _ & Hs & _).
  exact Hs.
Defined.

(** The order is the one of strings, not of numbers. *)
Example axis_is_lexicographic :
  timestamp_axis [("A", PyDict [("9", PyNone); ("10", PyNone)]);
                  ("B", PyDict [("100", PyNone); ("9", PyNone)])]
  = ["10"; "100"; "9"].
Proof. vm_compute. reflexivity. Qed.

(** The position in the axis that [_template] reads for an accepted index. *)
Lemma initial_timestamp_lookup (ts : list string) (i : Z) :
  - Z.of_nat (length ts) <= i < Z.of_nat (length ts) →
  let r := if 0 <=? i then i else Z.of_nat (length ts) + i in
  0 <= r < Z.of_nat (length ts) ∧
  Script.initial_timestamp ts i = ts !! Z.to_nat r ∧
  is_Some (ts !! Z.to_nat r).
Proof.
  intros Hi r. unfold Script.initial_timestamp, Script.js_index. subst r.
  destruct (Z.leb_spec 0 i) as [H0|H0].
  - split; [lia|]. destruct (Z.ltb_spec i 0); [lia|].
    split; [done|]. apply lookup_lt_is_Some. lia.
  - split; [lia|]. destruct (Z.ltb_spec (Z.of_nat (length ts) + i) 0); [lia|].
    split; [done|]. apply lookup_lt_is_Some. lia.
Qed.

(** The range check passes exactly on [-len(timestamps) <= i < len(timestamps)]. *)
Lemma init_completes (repr : pyval → string) (items : list (string * pyval))
    (i : Z) (highlight : bool) :
  Forall (λ v, isinstance_dict v = true) (items.*2) →
  fst (Python.__init__ repr (PyDict items) i highlight Python.fresh) = inr tt ↔
  - Z.of_nat (length (timestamp_axis items)) <= i
    < Z.of_nat (length (timestamp_axis items)).
Proof.
  intros Hall. rewrite init_valid by done.
  destruct (Z.leb_spec 0 i), (Z.ltb_spec i (Z.of_nat (length (timestamp_axis items)))),
    (Z.leb_spec (- Z.of_nat (length (timestamp_axis items))) i);
    simpl; split; intros; try done; lia.
Qed.

(** C7. On a non-empty axis the constructor accepts the indices 0 and -1, and
    every -k with 1 <= k <= len; the script then starts at the first
    timestamp, the last one, and the one at position len-k.  Whatever index
    the constructor accepts, the position the script reads lies within the
    axis. *)
Theorem C7_initial_index (repr : pyval → string) (items : list (string * pyval))
    (highlight : bool) :
  Forall (λ v, isinstance_dict v = true) (items.*2) →
  timestamp_axis items ≠ [] →
  let ts := timestamp_axis items in
  let n := Z.of_nat (length ts) in
  let accepted i :=
    fst (Python.__init__ repr (PyDict items) i highlight Python.fresh) = inr tt in
  (accepted 0 ∧ Script.initial_timestamp ts 0 = ts !! 0%nat ∧ is_Some (ts !! 0%nat)) ∧
  (accepted (-1) ∧ Script.initial_timestamp ts (-1) = last ts ∧ is_Some (last ts)) ∧
  (∀ k, 1 <= k <= n →
     accepted (- k) ∧ Script.initial_timestamp ts (- k) = ts !! Z.to_nat (n - k) ∧
     is_Some (ts !! Z.to_nat (n - k))) ∧
  (∀ i, accepted i →
     let r := if 0 <=? i then i else n + i in
     0 <= r < n ∧ Script.initial_timestamp ts i = ts !! Z.to_nat r ∧
     is_Some (ts !! Z.to_nat r)).
Proof.
  intros Hall Hne ts n accepted.
  assert (0 < n) as Hn.
  { unfold n, ts. destruct (timestamp_axis items); [done|simpl; lia]. }
  assert (∀ k, 1 <= k <= n →
     accepted (- k) ∧ Script.initial_timestamp ts (- k) = ts !! Z.to_nat (n - k) ∧
     is_Some (ts !! Z.to_nat (n - k))) as Hneg.
  { intros k Hk.
    assert (- n <= - k < n) as Hr by lia.
    split; [unfold accepted; apply init_completes; [exact Hall|exact Hr]|].
    destruct (initial_timestamp_lookup ts (- k) Hr) as (_ & Heq & Hsome).
    destruct (Z.leb_spec 0 (- k)); [lia|].
    by replace (n - k) with (n + - k) by lia. }
  split; [|split; [|split; [exact Hneg|]]].
  - assert (- n <= 0 < n) as Hr by lia.
    split; [unfold accepted; apply init_completes; [exact Hall|exact Hr]|].
    destruct (initial_timestamp_lookup ts 0 Hr) as (_ & Heq & Hsome).
    split; [exact Heq|exact Hsome].
  - destruct (Hneg 1) as (Hacc & Heq & Hsome); [lia|].
    assert (Z.to_nat (n - 1) = pred (length ts)) as Hp by (unfold n; lia).
    rewrite Hp in Heq, Hsome. by rewrite last_lookup.
  - intros i Hacc. unfold accepted in Hacc.
    apply (proj1 (init_completes repr items i highlight Hall)) in Hacc.
    exact (initial_timestamp_lookup ts i Hacc).
Qed.

Lemma C7_initial_index_witness :
  Forall (λ v, isinstance_dict v = true) [PyDict [("100", PyNone); ("200", PyNone)]] ∧
  timestamp_axis [("A", PyDict [("100", PyNone); ("200", PyNone)])] ≠ [] ∧
  Script.initial_timestamp
    (timestamp_axis [("A", PyDict [("100", PyNone); ("200", PyNone)])]) (-1)
  = last (timestamp_axis [("A", PyDict [("100", PyNone); ("200", PyNone)])]).
Proof.
  assert (Forall (λ v, isinstance_dict v = true)
            [PyDict [("100", PyNone); ("200", PyNone)]]) as Hall.
  { repeat constructor. }
  assert (timestamp_axis [("A", PyDict [("100", PyNone); ("200", PyNone)])] ≠ [])
    as Hne.
  { vm_compute. discriminate. }
  split; [exact Hall|]. split; [exact Hne|].
  destruct (C7_initial_index Example.repr
              [("A", PyDict [("100", PyNone); ("200", PyNone)])] true Hall Hne)
    as (_ & (_ & Heq & _) & _).
  exact Heq.
Defined.

(** C8, as the constructor has it. An index at or past the end of the axis,
    and an index below minus its length, make the constructor raise at the
    range check.  The message of the first names the index and the number of
    timestamps, the message of the second names the index and the text
    [[-len(timestamps), -1]]; neither spells out the bounds of this axis. *)
Theorem C8_index_out_of_range (repr : pyval → string)
    (items : list (string * pyval)) (i : Z) (highlight : bool) :
  Forall (λ v, isinstance_dict v = true) (items.*2) →
  let n := Z.of_nat (length (timestamp_axis items)) in
  i < - n ∨ n <= i →
  ∃ msg,
    Python.__init__ repr (PyDict items) i highlight Python.fresh
    = (inl (Python.AssertionError msg), built items highlight) ∧
    contains (str_of_int i) msg ∧
    msg = (if 0 <=? i then Python.index_too_large_msg i n
           else Python.index_too_small_msg i) ∧
    (if 0 <=? i then contains (str_of_int n) msg
     else contains "[-len(timestamps), -1]" msg).
Proof.
  intros Hall n Hi. rewrite init_valid by done. fold n.
  destruct (Z.leb_spec 0 i) as [H0|H0].
  - destruct (Z.ltb_spec i n); [lia|].
    eexists. split; [reflexivity|].
    split; [apply contains_here|]. split; [done|].
    unfold Python.index_too_large_msg.
    do 3 apply contains_append_l.
    apply (contains_here "" (str_of_int n) ".").
  - destruct (Z.leb_spec (- n) i); [lia|].
    eexists. split; [reflexivity|].
    unfold Python.index_too_small_msg.
    split; [|split; [done|]].
    + do 2 apply contains_append_l. apply (contains_here "" (str_of_int i) " instead.").
    + apply contains_append_l.
      apply (contains_here "`" "[-len(timestamps), -1]"
               ("` but got " ++ str_of_int i ++ " instead.")).
Qed.

Lemma C8_index_out_of_range_witness :
  Forall (λ v, isinstance_dict v = true) [PyDict [("100", PyNone); ("200", PyNone)]] ∧
  (2 < - Z.of_nat (length (timestamp_axis
                              [("A", PyDict [("100", PyNone); ("200", PyNone)])])) ∨
   Z.of_nat (length (timestamp_axis
                       [("A", PyDict [("100", PyNone); ("200", PyNone)])])) <= 2) ∧
  ∃ msg,
    fst (Python.__init__ Example.repr
           (PyDict [("A", PyDict [("100", PyNone); ("200", PyNone)])]) 2 true
           Python.fresh)
    = inl (Python.AssertionError msg).
Proof.
  assert (Forall (λ v, isinstance_dict v = true)
            [PyDict [("100", PyNone); ("200", PyNone)]]) as Hall.
  { repeat constructor. }
  assert (2 < - Z.of_nat (length (timestamp_axis
                              [("A", PyDict [("100", PyNone); ("200", PyNone)])])) ∨
          Z.of_nat (length (timestamp_axis
                       [("A", PyDict [("100", PyNone); ("200", PyNone)])])) <= 2)
    as Hi.
  { right. vm_compute. discriminate. }
  split; [exact Hall|]. split; [exact Hi|].
  destruct (C8_index_out_of_range Example.repr
              [("A", PyDict [("100", PyNone); ("200", PyNone)])] 2 true Hall Hi)
    as (msg & Heq & _).
  exists msg. by rewrite Heq.
Defined.

Lemma occurs_append (c : ascii) (s1 s2 : string) :
  occurs c (s1 ++ s2)%string = occurs c s1 || occurs c s2.
Proof.
  induction s1 as [|a s1 IH]; [done|].
  change (occurs c (String a (s1 ++ s2)%string)
          = occurs c (String a s1) || occurs c s2).
  simpl. by rewrite IH, orb_assoc.
Qed.

Lemma contains_occurs (c : ascii) (rest s : string) :
  contains (String c rest) s → occurs c s = true.
Proof.
  intros (pre & post & ->). rewrite !occurs_append. simpl.
  rewrite Ascii.eqb_refl. simpl. apply orb_true_r.
Qed.

(** One past the end of the two timestamps of the worked example: the valid
    range is from -2 to 1, and the message names neither bound - it has no
    "-" and no "1" in it. *)
Lemma C8_counterexample :
  Z.of_nat (length (timestamp_axis
    [("A", PyDict [("100", PyDict [("color", PyStr "red");
                                   ("opacity", PyNum (1 # 2))])]);
     ("B", PyDict [("200", PyDict [("color", PyStr "blue");
                                   ("opacity", PyNum (4 # 5))])])])) = 2 ∧
  fst (Python.__init__ Example.repr Example.styledict 2 true Python.fresh)
  = inl (Python.AssertionError (Python.index_too_large_msg 2 2)) ∧
  ¬ contains (str_of_int (-2)) (Python.index_too_large_msg 2 2) ∧
  ¬ contains (str_of_int 1) (Python.index_too_large_msg 2 2).
Proof.
  split; [vm_compute; reflexivity|]. split; [vm_compute; reflexivity|]. split.
  - intros H. apply (contains_occurs "-" "2") in H. vm_compute in H. discriminate.
  - intros H. apply (contains_occurs "1" "") in H. vm_compute in H. discriminate.
Qed.

(** The two boundary cases: one past the end, and one before the start. *)
Example one_past_the_end :
  fst (Python.__init__ Example.repr Example.styledict 2 true Python.fresh)
  = inl (Python.AssertionError
      "init_timestamp_index cannot be 2 since it is greater than the number of timestamps, which is 2.").
Proof. vm_compute. reflexivity. Qed.

Example one_before_the_start :
  fst (Python.__init__ Example.repr Example.styledict (-3) true Python.fresh)
  = inl (Python.AssertionError
      "When init_timestamp_index is negative, it must be in the range `[-len(timestamps), -1]` but got -3 instead.").
Proof. vm_compute. reflexivity. Qed.

(** C9. A style dictionary that is not a dictionary, or that maps some feature
    to something that is not one, makes the constructor raise a [ValueError]
    whose message ends with the [repr] of the offending value.  The frame is
    still the fresh one: the local [timestamps] is unbound and no attribute
    has been assigned. *)
Theorem C9_not_a_mapping (repr : pyval → string) (styledict : pyval) (i : Z)
    (highlight : bool) :
  isinstance_dict styledict = false ∨
  (∃ items, styledict = PyDict items ∧
     Exists (λ v, isinstance_dict v = false) (items.*2)) →
  ∃ offending msg,
    (offending = styledict ∨ ∃ items, styledict = PyDict items ∧ offending ∈ items.*2) ∧
    isinstance_dict offending = false ∧
    Python.__init__ repr styledict i highlight Python.fresh
    = (inl (Python.ValueError msg), Python.fresh) ∧
    contains (repr offending) msg ∧
    Python.timestamps Python.fresh = Python.Unbound ∧
    Python.self_timestamps Python.fresh = None.
Proof.
  intros [Hd|(items & -> & Hex)].
  - exists styledict, (Python.not_a_dict_msg repr styledict).
    split; [by left|]. split; [done|]. split; [by apply init_not_a_dict|].
    split; [apply contains_end|done].
  - destruct (find_not_dict_exists _ Hex) as [v Hv].
    destruct (find_not_dict_some _ _ Hv) as [Hin Hnd].
    exists v, (Python.item_not_a_dict_msg repr v).
    split; [right; by exists items|]. split; [done|].
    split; [by apply init_item_not_a_dict|].
    split; [apply contains_end|done].
Qed.

Lemma C9_not_a_mapping_witness :
  (isinstance_dict (PyDict [("A", PyStr "red")]) = false ∨
   (∃ items, PyDict [("A", PyStr "red")] = PyDict items ∧
      Exists (λ v, isinstance_dict v = false) (items.*2))) ∧
  ∃ msg,
    Python.__init__ Example.repr (PyDict [("A", PyStr "red")]) 0 true Python.fresh
    = (inl (Python.ValueError msg), Python.fresh).
Proof.
  assert (isinstance_dict (PyDict [("A", PyStr "red")]) = false ∨
   (∃ items, PyDict [("A", PyStr "red")] = PyDict items ∧
      Exists (λ v, isinstance_dict v = false) (items.*2))) as H.
  { right. exists [("A", PyStr "red")]. split; [reflexivity|].
    apply Exists_cons_hd. reflexivity. }
  split; [exact H|].
  destruct (C9_not_a_mapping Example.repr (PyDict [("A", PyStr "red")]) 0 true H)
    as (offending & msg & _ & _ & Heq & _).
  exists msg. exact Heq.
Defined.

(** A feature mapped directly to a string, and a style table that is a string. *)
Example feature_mapped_to_a_string :
  Python.__init__ Example.repr (PyDict [("A", PyStr "red")]) 0 true Python.fresh
  = (inl (Python.ValueError
            "Each item in styledict must be a dictionary, got 'red'"),
     Python.fresh).
Proof. vm_compute. reflexivity. Qed.

Example styledict_is_a_string :
  Python.__init__ Example.repr (PyStr "red") 0 true Python.fresh
  = (inl (Python.ValueError "styledict must be a dictionary, got 'red'"),
     Python.fresh).
Proof. vm_compute. reflexivity. Qed.

Lemma timestamp_axis_nil : timestamp_axis [] = [].
Proof. unfold timestamp_axis, timestamp_keys. simpl. by rewrite elements_empty. Qed.

(** C10. With an empty style dictionary the axis is empty and the constructor
    raises at the range check for every index: an index from 0 on is not below
    the length 0, and a negative index is below minus the length. *)
Theorem C10_empty_styledict (repr : pyval → string) (i : Z) (highlight : bool) :
  timestamp_axis [] = [] ∧
  Python.__init__ repr (PyDict []) i highlight Python.fresh
  = (inl (Python.AssertionError
            (if 0 <=? i then Python.index_too_large_msg i 0
             else Python.index_too_small_msg i)),
     built [] highlight).
Proof.
  split; [apply timestamp_axis_nil|].
  rewrite init_valid by constructor. rewrite timestamp_axis_nil. simpl.
  change (Z.of_nat 0) with 0. change (- 0) with 0.
  destruct (Z.leb_spec 0 i).
  - destruct (Z.ltb_spec i 0); [lia|reflexivity].
  - reflexivity.
Qed.

(** * The script, step by step *)

Section ScriptFacts.

Import Script.

#[local] Existing Instance JS_ret.
#[local] Existing Instance JS_bind.

Lemma only_paths_ret {A} (x : A) : only_paths (mret x).
Proof. by intros pg. Qed.

Lemma only_paths_lift {A} (r : js_error + A) : only_paths (lift r).
Proof. by intros pg. Qed.

Lemma only_paths_read : only_paths read_current_timestamp.
Proof. by intros pg. Qed.

Lemma only_paths_write_paths (g : list (string * path) → list (string * path)) :
  only_paths (write_paths g).
Proof. by intros pg. Qed.

Lemma only_paths_bind {A B} (m : JS A) (k : A → JS B) :
  only_paths m → (∀ x, only_paths (k x)) → only_paths (m ≫= k).
Proof.
  intros Hm Hk pg. unfold mbind, JS_bind.
  specialize (Hm pg). destruct (m pg) as [[e|x] pg1]; simpl in *; [done|].
  destruct (Hk x pg1) as (-> & -> & ->). done.
Qed.

Lemma only_paths_for_in (ks : list string) (body : string → JS unit) :
  (∀ k, only_paths (body k)) → only_paths (for_in ks body).
Proof.
  intros Hbody. induction ks as [|k ks IH]; simpl.
  - apply only_paths_ret.
  - apply only_paths_bind; [apply Hbody|by intros _].
Qed.

Lemma only_paths_fill_map (styledict : pyval) : only_paths (fill_map styledict).
Proof.
  unfold fill_map. apply only_paths_for_in. intros feature_id.
  apply only_paths_bind; [apply only_paths_lift|intros style].
  apply only_paths_bind; [apply only_paths_read|intros t].
  apply only_paths_bind; [apply only_paths_lift|intros [|]];
    [|apply only_paths_ret].
  repeat (apply only_paths_bind; [apply only_paths_lift|intros ?]).
  apply only_paths_write_paths.
Qed.

(** After the slider's [input] handler the current timestamp is the one at
    the slider's value. *)
Lemma on_input_current_timestamp (timestamps : list string) (styledict : pyval)
    (datestring : option string → string) (value : Z) (pg : page) :
  current_timestamp (snd (on_input timestamps styledict datestring value pg))
  = js_index timestamps value.
Proof.
  unfold on_input. unfold mbind, JS_bind. simpl.
  by destruct (only_paths_fill_map styledict
    {| current_timestamp := js_index timestamps value; slider := slider pg;
       slider_value_text := Some (datestring (js_index timestamps value));
       paths := paths pg |}) as (-> & _).
Qed.

(** The slider the script inserts. *)
Lemma load_slider (timestamps : list string) (styledict : pyval) (i : Z)
    (datestring : option string → string) (drawn : list (string * path)) :
  slider (load timestamps styledict i datestring drawn)
  = Some {| attr_min := 0;
            attr_max := Z.of_nat (length timestamps) - 1;
            attr_value := initial_timestamp timestamps i;
            attr_step := "1" |}.
Proof.
  unfold load, script. unfold mbind, JS_bind. simpl.
  match goal with |- slider (snd (fill_map _ ?pg)) = _ =>
    by destruct (only_paths_fill_map styledict pg) as (_ & -> & _) end.
Qed.

Lemma restyle_lookup (id : string) (g : path → path) (els : list (string * path))
    (i : nat) (eid : string) (p : path) :
  els !! i = Some (eid, p) →
  restyle id g els !! i = Some (eid, if String.eqb eid id then g p else p).
Proof.
  intros H. unfold restyle. rewrite list_lookup_fmap, H. simpl.
  by destruct (String.eqb eid id).
Qed.

Lemma restyle_paths (id : string) (g : path → path) (els : list (string * path))
    (i : nat) (eid : string) (p : path) :
  els !! i = Some (eid, p) →
  ∃ p', restyle id g els !! i = Some (eid, p') ∧
        (eid = id → p' = g p) ∧ (eid ≠ id → p' = p).
Proof.
  intros H. rewrite (restyle_lookup id g els i eid p H).
  eexists. split; [done|].
  destruct (String.eqb_spec eid id); split; congruence.
Qed.

(** What [mouseover] does on a feature of the style dictionary. *)
Lemma mouseover_run (items style : list (string * pyval)) (feature_id : string)
    (pg : page) :
  assoc feature_id items = Some (PyDict style) →
  mouseover (PyDict items) feature_id pg =
  if bool_decide (is_Some (assoc (property_key (current_timestamp pg)) style))
  then (inr tt,
        {| current_timestamp := current_timestamp pg; slider := slider pg;
           slider_value_text := slider_value_text pg;
           paths := restyle (feature_element_id feature_id)
                      (set_style_fill_opacity (Some (PyNum 1))) (paths pg) |})
  else (inr tt, pg).
Proof.
  intros H. unfold mouseover, mbind, JS_bind. simpl. rewrite H. simpl.
  by destruct (bool_decide _).
Qed.

End ScriptFacts.

(** * The claims about the script *)

(** C1. In the worked example, loaded with the slider at index 0, feature A is
    painted red at opacity 0.5.  After a slider input at index 1 the current
    timestamp is "200", where A has no entry, and A is still painted red at
    opacity 0.5: [fill_map] prepares 'white' and 0 for it but applies a style
    only inside the branch for a feature that has an entry. *)
Theorem C1_stale_style_kept :
  Script.current_timestamp (Example.session [Script.Input 1]) = Some "200" ∧
  Example.has_entry "A" (Example.session [Script.Input 1]) = inr false ∧
  Example.painted "A" (Example.session [Script.Input 1])
  = Some (Some (PyStr "red"), Some (PyNum (1 # 2))) ∧
  Example.painted "A" (Example.session [Script.Input 1])
  ≠ Some (Some (PyStr "white"), Some (PyNum 0)).
Proof. vm_compute. repeat split; try reflexivity. discriminate. Qed.

(** C2. The scenario on the worked example, with [highlight] set: A is
    hovered at index 0, the slider moves to index 1, the pointer leaves.  At
    "200" A has no entry, and A is still painted red at opacity 0.5, not white
    at opacity 0.  No listener was installed on the features, so the hover
    and the leave run nothing; [fill_map] did not repaint A at index 1; and
    [mouseout], had it run on the page at that point, writes nothing for a
    feature without an entry. *)
Theorem C2_leave_keeps_stale_style :
  Script.current_timestamp
    (Example.session [Script.MouseOver "A"; Script.Input 1]) = Some "200" ∧
  Example.has_entry "A" (Example.session [Script.MouseOver "A"; Script.Input 1])
  = inr false ∧
  Example.painted "A"
    (Example.session [Script.MouseOver "A"; Script.Input 1; Script.MouseOut "A"])
  = Some (Some (PyStr "red"), Some (PyNum (1 # 2))) ∧
  Example.painted "A"
    (Example.session [Script.MouseOver "A"; Script.Input 1; Script.MouseOut "A"])
  ≠ Some (Some (PyStr "white"), Some (PyNum 0)) ∧
  Example.session [Script.MouseOver "A"] = Example.loaded ∧
  Script.mouseout Example.styledict "A"
    (Example.session [Script.MouseOver "A"; Script.Input 1])
  = (inr tt, Example.session [Script.MouseOver "A"; Script.Input 1]).
Proof. vm_compute. repeat split; try reflexivity. discriminate. Qed.

(** C3, as the script has it. The handler [mouseover] the script defines,
    run for a feature of the style dictionary: when the feature has an entry
    at the current timestamp it sets the fill opacity of that feature's paths
    to 1, keeps their fill, and changes no other path; when the feature has
    no entry there it changes nothing.  The current timestamp, the slider and
    the date output stay as they are.  (The feature id is a CSS identifier
    and neither it nor the current timestamp names a member of
    [Object.prototype].) *)
Theorem C3_mouseover (items style : list (string * pyval)) (feature_id : string)
    (pg : Script.page) :
  assoc feature_id items = Some (PyDict style) →
  plain_id feature_id = true →
  own_only (Script.property_key (Script.current_timestamp pg)) = true →
  ∃ pg', Script.mouseover (PyDict items) feature_id pg = (inr tt, pg') ∧
    Script.current_timestamp pg' = Script.current_timestamp pg ∧
    Script.slider pg' = Script.slider pg ∧
    Script.slider_value_text pg' = Script.slider_value_text pg ∧
    (is_Some (assoc (Script.property_key (Script.current_timestamp pg)) style) →
     ∀ i id p, Script.paths pg !! i = Some (id, p) →
       ∃ p', Script.paths pg' !! i = Some (id, p') ∧
         (id = Script.feature_element_id feature_id →
            Script.rendered_fill_opacity p' = Some (PyNum 1) ∧
            Script.rendered_fill p' = Script.rendered_fill p) ∧
         (id ≠ Script.feature_element_id feature_id → p' = p)) ∧
    (assoc (Script.property_key (Script.current_timestamp pg)) style = None →
     pg' = pg).
Proof.
  intros Hstyle _ _. rewrite (mouseover_run items style) by done.
  destruct (assoc (Script.property_key (Script.current_timestamp pg)) style)
    as [entry|] eqn:He.
  - rewrite bool_decide_eq_true_2 by by eexists.
    eexists. split; [reflexivity|]. simpl.
    split; [done|]. split; [done|]. split; [done|]. split; [|done].
    intros _ i id p Hi.
    destruct (restyle_paths (Script.feature_element_id feature_id)
                (Script.set_style_fill_opacity (Some (PyNum 1)))
                (Script.paths pg) i id p Hi) as (p' & Hp' & Heq & Hne).
    exists p'. split; [done|]. split; [|done].
    by intros ->%Heq.
  - rewrite bool_decide_eq_false_2 by by intros [? ?].
    exists pg. split; [reflexivity|].
    split; [done|]. split; [done|]. split; [done|]. split; [|done].
    by intros [? ?].
Qed.

(** The handler run on A in the worked example at index 0, where A has an
    entry: the opacity of A's path goes from 0.5 to 1. *)
Lemma C3_mouseover_witness :
  assoc "A" [("A", PyDict [("100", PyDict [("color", PyStr "red");
                                            ("opacity", PyNum (1 # 2))])]);
             ("B", PyDict [("200", PyDict [("color", PyStr "blue");
                                            ("opacity", PyNum (4 # 5))])])]
  = Some (PyDict [("100", PyDict [("color", PyStr "red");
                                  ("opacity", PyNum (1 # 2))])]) ∧
  plain_id "A" = true ∧
  own_only (Script.property_key (Script.current_timestamp Example.loaded)) = true ∧
  Example.painted "A" Example.loaded
  = Some (Some (PyStr "red"), Some (PyNum (1 # 2))) ∧
  ∃ pg', Script.mouseover Example.styledict "A" Example.loaded = (inr tt, pg') ∧
    ∃ p', Script.paths pg' !! 0%nat = Some (Script.feature_element_id "A", p') ∧
      Script.rendered_fill_opacity p' = Some (PyNum 1).
Proof.
  split; [reflexivity|]. split; [reflexivity|]. split; [reflexivity|].
  split; [reflexivity|].
  destruct (C3_mouseover
    [("A", PyDict [("100", PyDict [("color", PyStr "red");
                                   ("opacity", PyNum (1 # 2))])]);
     ("B", PyDict [("200", PyDict [("color", PyStr "blue");
                                   ("opacity", PyNum (4 # 5))])])]
    [("100", PyDict [("color", PyStr "red"); ("opacity", PyNum (1 # 2))])]
    "A" Example.loaded eq_refl eq_refl eq_refl)
    as (pg' & Hrun & _ & _ & _ & Hpresent & _).
  exists pg'. split; [exact Hrun|].
  destruct (Hpresent (ex_intro _ _ eq_refl) 0%nat (Script.feature_element_id "A")
              {| Script.attr_fill := Some (PyStr "red");
                 Script.attr_fill_opacity := Some (PyNum 0);
                 Script.attr_stroke := Some (PyStr "white");
                 Script.attr_stroke_width := Some (PyNum (4 # 5));
                 Script.attr_stroke_dasharray := Some (PyStr "5,5");
                 Script.style_fill_opacity := Some (PyNum (1 # 2)) |} eq_refl)
    as (p' & Hp' & Hsame & _).
  exists p'. split; [exact Hp'|]. exact (proj1 (Hsame eq_refl)).
Defined.

(** The handler run on B in the worked example at index 0, where B has no
    entry: the fill opacity of B stays 0. *)
Lemma C3_counterexample :
  Script.current_timestamp Example.loaded = Some "100" ∧
  Example.has_entry "B" Example.loaded = inr false ∧
  Script.rendered_fill_opacity
    <$> Example.path_of "B"
          (snd (Script.mouseover Example.styledict "B" Example.loaded))
  = Some (Some (PyNum 0)) ∧
  Script.rendered_fill_opacity
    <$> Example.path_of "B"
          (snd (Script.mouseover Example.styledict "B" Example.loaded))
  ≠ Some (Some (PyNum 1)).
Proof. vm_compute. repeat split; try reflexivity. discriminate. Qed.

(** C4. In the worked example with initial index 0 the slider gets [min] 0,
    [max] 1 and [step] "1", and its [value] attribute is the timestamp "100"
    the index resolves to, not the index. *)
Theorem C4_slider_value_is_timestamp :
  fst (Python.__init__ Example.repr Example.styledict 0 true Python.fresh)
  = inr tt ∧
  Script.slider Example.loaded
  = Some {| Script.attr_min := 0; Script.attr_max := 1;
            Script.attr_value := Some "100"; Script.attr_step := "1" |} ∧
  Script.attr_value <$> Script.slider Example.loaded ≠ Some (Some (str_of_int 0)).
Proof. vm_compute. repeat split; try reflexivity. discriminate. Qed.

(** C5. In the worked example, slider inputs at 0, 1 and 0 again leave
    feature B painted blue at opacity 0.8, the style of index 1, while a
    single input at 0 leaves it with the fill Leaflet gave it at opacity 0. *)
Theorem C5_slider_round_trip_drifts :
  Example.painted "B"
    (Example.session [Script.Input 0; Script.Input 1; Script.Input 0])
  = Some (Some (PyStr "blue"), Some (PyNum (4 # 5))) ∧
  Example.painted "B" (Example.session [Script.Input 0])
  = Some (Some (PyStr "#3388ff"), Some (PyNum 0)) ∧
  Example.painted "B"
    (Example.session [Script.Input 0; Script.Input 1; Script.Input 0])
  ≠ Example.painted "B" (Example.session [Script.Input 0]).
Proof. vm_compute. repeat split; try reflexivity. discriminate. Qed.

(** * More about the repaint *)

Section RepaintFacts.

Import Script.

#[local] Existing Instance JS_ret.
#[local] Existing Instance JS_bind.

Lemma assoc_elem_of (k : string) (items : list (string * pyval)) (v : pyval) :
  assoc k items = Some v → (k, v) ∈ items.
Proof.
  induction items as [|[k' v'] items IH]; simpl; [done|].
  destruct (String.eqb_spec k k') as [->|Hne].
  - intros [= ->]. by left.
  - intros H. right. by apply IH.
Qed.

Lemma assoc_is_Some (k : string) (items : list (string * pyval)) :
  is_Some (assoc k items) ↔ k ∈ items.*1.
Proof.
  induction items as [|[k' v'] items IH]; simpl.
  - split; [by intros [? ?]|by intros ?%elem_of_nil].
  - destruct (String.eqb_spec k k') as [->|Hne].
    + split; [intros _; by left|by eexists].
    + rewrite IH. split; [by right|]. by intros [?|?]%elem_of_cons.
Qed.

Lemma feature_element_id_inj (a b : string) :
  feature_element_id a = feature_element_id b → a = b.
Proof. unfold feature_element_id. apply (inj (String.app "feature-")). Qed.

Lemma with_paths_id (pg : page) : with_paths pg (paths pg) = pg.
Proof. by destruct pg. Qed.

(** A loop whose rounds only rewrite the paths is a fold over the paths. *)
Lemma for_in_fold (ks : list string) (body : string → JS unit)
    (step : string → list (string * path) → list (string * path)) (pg : page) :
  (∀ k els, k ∈ ks →
     body k (with_paths pg els) = (inr tt, with_paths pg (step k els))) →
  ∀ els, for_in ks body (with_paths pg els)
         = (inr tt, with_paths pg (foldl (λ els k, step k els) els ks)).
Proof.
  induction ks as [|k ks IH]; intros Hbody els; simpl; [done|].
  unfold mbind, JS_bind. rewrite Hbody by by left.
  apply IH. intros k' els' Hk'. apply Hbody. by right.
Qed.

(** One round of [fill_map] for a feature that maps to a dictionary without
    a [null] entry at the current timestamp. *)
Lemma fill_round (items style : list (string * pyval)) (feature_id : string)
    (pg : page) (els : list (string * path)) :
  assoc feature_id items = Some (PyDict style) →
  assoc (property_key (current_timestamp pg)) style ≠ Some PyNone →
  (style ← lift (js_get (Some (PyDict items)) feature_id);
   let fillColor := Some (PyStr "white") in
   let opacity := Some (PyNum 0) in
   t ← read_current_timestamp;
   present ← lift (js_in (property_key t) style);
   if (present : bool) then
     entry ← lift (js_get style (property_key t));
     fillColor ← lift (js_get entry "color");
     entry ← lift (js_get style (property_key t));
     opacity ← lift (js_get entry "opacity");
     select_all (feature_element_id feature_id)
       (λ p, set_style_fill_opacity opacity (set_attr_fill fillColor p))
   else mret tt) (with_paths pg els)
  = (inr tt,
     with_paths pg
       (paint_feature items (property_key (current_timestamp pg)) feature_id els)).
Proof.
  intros Hv Hnull.
  unfold paint_feature, paint_path. rewrite Hv.
  unfold mbind, JS_bind. simpl. rewrite Hv. simpl.
  destruct (assoc (property_key (current_timestamp pg)) style) as [entry|] eqn:He.
  - rewrite bool_decide_eq_true_2 by by eexists. simpl.
    destruct entry; try done.
  - rewrite bool_decide_eq_false_2 by by intros [? ?]. simpl.
    unfold with_paths. f_equal. f_equal. unfold restyle.
    induction els as [|el els IH]; simpl; [done|].
    rewrite <- IH. by destruct (String.eqb _ _), el.
Qed.

(** One round for a feature whose entry at the current timestamp is [null]:
    reading the colour throws, and nothing is written. *)
Lemma fill_round_null (items style : list (string * pyval)) (feature_id : string)
    (pg : page) :
  assoc feature_id items = Some (PyDict style) →
  assoc (property_key (current_timestamp pg)) style = Some PyNone →
  (style ← lift (js_get (Some (PyDict items)) feature_id);
   let fillColor := Some (PyStr "white") in
   let opacity := Some (PyNum 0) in
   t ← read_current_timestamp;
   present ← lift (js_in (property_key t) style);
   if (present : bool) then
     entry ← lift (js_get style (property_key t));
     fillColor ← lift (js_get entry "color");
     entry ← lift (js_get style (property_key t));
     opacity ← lift (js_get entry "opacity");
     select_all (feature_element_id feature_id)
       (λ p, set_style_fill_opacity opacity (set_attr_fill fillColor p))
   else mret tt) pg
  = (inl TypeError, pg).
Proof.
  intros Hv He. unfold mbind, JS_bind. simpl. rewrite Hv. simpl. rewrite He.
  rewrite bool_decide_eq_true_2 by by eexists. by simpl.
Qed.

Lemma paint_idem (entry : pyval) (p : path) :
  paint entry (paint entry p) = paint entry p.
Proof. by destruct p. Qed.

Lemma paint_path_idem (items : list (string * pyval)) (key feature_id : string)
    (p : path) :
  paint_path items key feature_id (paint_path items key feature_id p)
  = paint_path items key feature_id p.
Proof.
  unfold paint_path. destruct (assoc feature_id items) as [[| | | |style]|]; try done.
  destruct (assoc key style); [apply paint_idem|done].
Qed.

(** Where a path ends up after the rounds for the features [ks]. *)
Lemma paint_fold_lookup (items : list (string * pyval)) (key : string)
    (ks : list string) :
  ∀ (els : list (string * path)) (i : nat) (id : string) (p : path),
  els !! i = Some (id, p) →
  ∃ p', foldl (λ els k, paint_feature items key k els) els ks !! i = Some (id, p') ∧
    (∀ feature_id, id = feature_element_id feature_id → feature_id ∈ ks →
       p' = paint_path items key feature_id p) ∧
    ((∀ feature_id, feature_id ∈ ks → id ≠ feature_element_id feature_id) → p' = p).
Proof.
  induction ks as [|k ks IH]; intros els i id p Hi; simpl.
  - exists p. split; [done|]. split; [by intros ? _ ?%elem_of_nil|done].
  - destruct (restyle_paths (feature_element_id k) (paint_path items key k)
                els i id p Hi) as (p1 & Hp1 & Heq & Hne).
    destruct (IH (paint_feature items key k els) i id p1 Hp1)
      as (p' & Hp' & Hin & Hout).
    exists p'. split; [done|]. split.
    + intros feature_id -> Hk.
      destruct (decide (feature_id = k)) as [->|Hfk].
      * rewrite (Heq eq_refl) in Hin, Hout.
        destruct (decide (k ∈ ks)) as [Hks|Hks].
        -- rewrite (Hin k eq_refl Hks). apply paint_path_idem.
        -- apply Hout. intros f Hf ?%feature_element_id_inj. by subst.
      * assert (p1 = p) as ->.
        { apply Hne. by intros ?%feature_element_id_inj. }
        apply Hin; [done|]. by apply elem_of_cons in Hk as [?|?].
    + intros Hno. assert (p1 = p) as ->.
      { apply Hne. apply Hno. by left. }
      apply Hout. intros f Hf. apply Hno. by right.
Qed.

(** [fill_map] on a table where no read throws: the page with the paths
    folded through the rounds. *)
Lemma fill_map_fold (items : list (string * pyval)) (pg : page) :
  table_ok items (property_key (current_timestamp pg)) →
  fill_map (PyDict items) pg
  = (inr tt,
     with_paths pg
       (foldl (λ els k,
                 paint_feature items (property_key (current_timestamp pg)) k els)
              (paths pg) (items.*1))).
Proof.
  intros Hok. rewrite <- (with_paths_id pg) at 1. unfold fill_map. simpl js_keys.
  apply (for_in_fold (items.*1) _
           (paint_feature items (property_key (current_timestamp pg)))).
  intros k els Hk. apply assoc_is_Some in Hk as [v Hv].
  destruct (Hok k v (assoc_elem_of _ _ _ Hv)) as (style & -> & Hnull).
  by apply (fill_round items style).
Qed.

End RepaintFacts.

(** X1. The full repaint, on a style table whose features are dictionaries
    without a [null] entry at the current timestamp, whose feature ids are
    CSS identifiers, and where neither an id nor the current timestamp names
    a member of [Object.prototype]: it completes, writes nothing but paths,
    keeps every path in place under its id, paints every path of a feature
    that has an entry at the current timestamp with that entry's colour and
    opacity, and leaves every other path as it was. *)
Theorem fill_map_repaints (items : list (string * pyval)) (pg : Script.page) :
  Forall (λ k, plain_id k = true) (items.*1) →
  own_only (Script.property_key (Script.current_timestamp pg)) = true →
  table_ok items (Script.property_key (Script.current_timestamp pg)) →
  ∃ els, Script.fill_map (PyDict items) pg = (inr tt, with_paths pg els) ∧
    ∀ i id p, Script.paths pg !! i = Some (id, p) →
      ∃ p', els !! i = Some (id, p') ∧
        (∀ feature_id style entry,
           id = Script.feature_element_id feature_id →
           assoc feature_id items = Some (PyDict style) →
           assoc (Script.property_key (Script.current_timestamp pg)) style
           = Some entry →
           p' = paint entry p) ∧
        (∀ feature_id style,
           id = Script.feature_element_id feature_id →
           assoc feature_id items = Some (PyDict style) →
           assoc (Script.property_key (Script.current_timestamp pg)) style = None →
           p' = p) ∧
        ((∀ feature_id, is_Some (assoc feature_id items) →
            id ≠ Script.feature_element_id feature_id) → p' = p).
Proof.
  intros _ _ Hok. eexists. split; [by apply fill_map_fold|].
  intros i id p Hi.
  destruct (paint_fold_lookup items
              (Script.property_key (Script.current_timestamp pg)) (items.*1)
              (Script.paths pg) i id p Hi) as (p' & Hp' & Hin & Hout).
  exists p'. split; [done|]. split; [|split].
  - intros feature_id style entry -> Hs He.
    rewrite (Hin feature_id eq_refl); [|apply assoc_is_Some; by eexists].
    unfold paint_path. by rewrite Hs, He.
  - intros feature_id style -> Hs He.
    rewrite (Hin feature_id eq_refl); [|apply assoc_is_Some; by eexists].
    unfold paint_path. by rewrite Hs, He.
  - intros Hno. apply Hout. intros f Hf. apply Hno. by apply assoc_is_Some.
Qed.

(** On the page with A's path at timestamp "100": the path, drawn in
    Leaflet's blue, comes out red at opacity 0.5. *)
Lemma fill_map_repaints_witness :
  Forall (λ k, plain_id k = true) (Example.one_feature.*1) ∧
  own_only (Script.property_key (Script.current_timestamp Example.one_page)) = true ∧
  table_ok Example.one_feature
    (Script.property_key (Script.current_timestamp Example.one_page)) ∧
  ∃ els p',
    Script.fill_map (PyDict Example.one_feature) Example.one_page
    = (inr tt, with_paths Example.one_page els) ∧
    els !! 0%nat = Some (Script.feature_element_id "A", p') ∧
    p' = paint (PyDict [("color", PyStr "red"); ("opacity", PyNum (1 # 2))])
           Example.leaflet_path ∧
    Script.rendered_fill p' = Some (PyStr "red") ∧
    Script.rendered_fill_opacity p' = Some (PyNum (1 # 2)).
Proof.
  assert (Forall (λ k, plain_id k = true) (Example.one_feature.*1)) as Hids
    by (repeat constructor).
  assert (table_ok Example.one_feature
    (Script.property_key (Script.current_timestamp Example.one_page))) as Hok.
  { intros f v Hin. apply list_elem_of_singleton in Hin. injection Hin as -> ->.
    eexists. split; [reflexivity|]. simpl. discriminate. }
  split; [exact Hids|]. split; [reflexivity|]. split; [exact Hok|].
  destruct (fill_map_repaints Example.one_feature Example.one_page Hids eq_refl Hok)
    as (els & Heq & Hpaths).
  destruct (Hpaths 0%nat (Script.feature_element_id "A") Example.leaflet_path
              eq_refl) as (p' & Hp' & Hpaint & _).
  exists els, p'. split; [exact Heq|]. split; [exact Hp'|].
  pose proof (Hpaint "A" _ _ eq_refl eq_refl eq_refl) as Hp.
  split; [exact Hp|]. rewrite Hp. split; reflexivity.
Defined.

Section RepaintMore.

Import Script.

#[local] Existing Instance JS_ret.
#[local] Existing Instance JS_bind.

Lemma paint_fold_length (items : list (string * pyval)) (key : string)
    (ks : list string) (els : list (string * path)) :
  length (foldl (λ els k, paint_feature items key k els) els ks) = length els.
Proof.
  revert els. induction ks as [|k ks IH]; intros els; simpl; [done|].
  rewrite IH. unfold paint_feature, restyle. by rewrite length_fmap.
Qed.

(** Going through the rounds a second time changes nothing. *)
Lemma paint_fold_idem (items : list (string * pyval)) (key : string)
    (ks : list string) (els : list (string * path)) :
  foldl (λ els k, paint_feature items key k els)
    (foldl (λ els k, paint_feature items key k els) els ks) ks
  = foldl (λ els k, paint_feature items key k els) els ks.
Proof.
  apply list_eq. intros i.
  destruct (els !! i) as [[id p]|] eqn:Hi.
  - destruct (paint_fold_lookup items key ks els i id p Hi)
      as (p' & Hp' & Hin & Hout).
    destruct (paint_fold_lookup items key ks _ i id p' Hp')
      as (p'' & Hp'' & Hin' & Hout').
    rewrite Hp'', Hp'. f_equal. f_equal.
    destruct (decide (Exists (λ f, id = feature_element_id f) ks)) as [Hex|Hnex].
    + apply Exists_exists in Hex as (f & Hf & ->).
      rewrite (Hin' f eq_refl Hf), (Hin f eq_refl Hf). apply paint_path_idem.
    + apply Hout'. intros f Hf ->. apply Hnex, Exists_exists. eauto.
  - apply lookup_ge_None in Hi.
    rewrite (proj2 (lookup_ge_None _ i)) by (by rewrite !paint_fold_length).
    by rewrite (proj2 (lookup_ge_None _ i)) by (by rewrite paint_fold_length).
Qed.

Lemma same_but_fill_refl (p : path) : same_but_fill p p.
Proof. by repeat split. Qed.

Lemma same_but_fill_trans (p1 p2 p3 : path) :
  same_but_fill p1 p2 → same_but_fill p2 p3 → same_but_fill p1 p3.
Proof. unfold same_but_fill. intros (?&?&?&?) (?&?&?&?). repeat split; congruence. Qed.

Lemma repainted_refl (els : list (string * path)) : repainted els els.
Proof.
  induction els; constructor; [|done]. split; [done|apply same_but_fill_refl].
Qed.

Lemma repainted_trans (l1 l2 l3 : list (string * path)) :
  repainted l1 l2 → repainted l2 l3 → repainted l1 l3.
Proof.
  intros H12. revert l3. induction H12 as [|a b l1 l2 [Hid Hs] _ IH];
    intros l3 H23; inversion H23 as [|? c ? l3' [Hid' Hs'] H23']; subst;
    constructor; [|by apply IH].
  split; [congruence|by eapply same_but_fill_trans].
Qed.

Lemma repainted_restyle (id : string) (g : path → path)
    (els : list (string * path)) :
  (∀ p, same_but_fill p (g p)) → repainted els (restyle id g els).
Proof.
  intros Hg. induction els as [|[eid p] els IH]; simpl; constructor; [|done].
  simpl. destruct (String.eqb eid id); simpl; (split; [done|]);
    [apply Hg|apply same_but_fill_refl].
Qed.

Lemma repaints_only_ret {A} (x : A) : repaints_only (mret x).
Proof. intros pg. apply repainted_refl. Qed.

Lemma repaints_only_lift {A} (r : js_error + A) : repaints_only (lift r).
Proof. intros pg. apply repainted_refl. Qed.

Lemma repaints_only_read : repaints_only read_current_timestamp.
Proof. intros pg. apply repainted_refl. Qed.

Lemma repaints_only_bind {A B} (m : JS A) (k : A → JS B) :
  repaints_only m → (∀ x, repaints_only (k x)) → repaints_only (m ≫= k).
Proof.
  intros Hm Hk pg. unfold mbind, JS_bind.
  specialize (Hm pg). destruct (m pg) as [[e|x] pg1]; simpl in *; [done|].
  eapply repainted_trans; [exact Hm|apply Hk].
Qed.

Lemma repaints_only_for_in (ks : list string) (body : string → JS unit) :
  (∀ k, repaints_only (body k)) → repaints_only (for_in ks body).
Proof.
  intros Hbody. induction ks as [|k ks IH]; simpl.
  - apply repaints_only_ret.
  - apply repaints_only_bind; [apply Hbody|by intros _].
Qed.

Lemma repaints_only_fill_map (styledict : pyval) : repaints_only (fill_map styledict).
Proof.
  unfold fill_map. apply repaints_only_for_in. intros feature_id.
  apply repaints_only_bind; [apply repaints_only_lift|intros style].
  apply repaints_only_bind; [apply repaints_only_read|intros t].
  apply repaints_only_bind; [apply repaints_only_lift|intros [|]];
    [|apply repaints_only_ret].
  repeat (apply repaints_only_bind; [apply repaints_only_lift|intros ?]).
  intros pg. simpl. apply repainted_restyle. by intros [].
Qed.

End RepaintMore.

(** X2. Repainting twice at the same timestamp is repainting once: on a
    style table as in X1, a second [fill_map] completes and leaves the page
    of the first. *)
Theorem fill_map_idempotent (items : list (string * pyval)) (pg : Script.page) :
  Forall (λ k, plain_id k = true) (items.*1) →
  own_only (Script.property_key (Script.current_timestamp pg)) = true →
  table_ok items (Script.property_key (Script.current_timestamp pg)) →
  Script.fill_map (PyDict items) (snd (Script.fill_map (PyDict items) pg))
  = Script.fill_map (PyDict items) pg.
Proof.
  intros _ _ Hok. rewrite (fill_map_fold items pg Hok). simpl.
  rewrite fill_map_fold by done. simpl. unfold with_paths. simpl.
  by rewrite paint_fold_idem.
Qed.

(** On the page with A's path at timestamp "100", where the first repaint
    changes the path. *)
Lemma fill_map_idempotent_witness :
  Forall (λ k, plain_id k = true) (Example.one_feature.*1) ∧
  own_only (Script.property_key (Script.current_timestamp Example.one_page)) = true ∧
  table_ok Example.one_feature
    (Script.property_key (Script.current_timestamp Example.one_page)) ∧
  snd (Script.fill_map (PyDict Example.one_feature) Example.one_page)
  ≠ Example.one_page ∧
  Script.fill_map (PyDict Example.one_feature)
    (snd (Script.fill_map (PyDict Example.one_feature) Example.one_page))
  = Script.fill_map (PyDict Example.one_feature) Example.one_page.
Proof.
  assert (Forall (λ k, plain_id k = true) (Example.one_feature.*1)) as Hids
    by (repeat constructor).
  assert (table_ok Example.one_feature
    (Script.property_key (Script.current_timestamp Example.one_page))) as Hok.
  { intros f v Hin. apply list_elem_of_singleton in Hin. injection Hin as -> ->.
    eexists. split; [reflexivity|]. simpl. discriminate. }
  split; [exact Hids|]. split; [reflexivity|]. split; [exact Hok|].
  split; [vm_compute; discriminate|].
  exact (fill_map_idempotent Example.one_feature Example.one_page Hids eq_refl Hok).
Defined.

(** X3. Whatever the style dictionary holds, and whether it completes or
    throws, [fill_map] never changes the current timestamp, the slider or the
    text of the date output; every path stays at its place with its id, and
    of a path only the fill attribute and the fill-opacity style property can
    change. *)
Theorem fill_map_only_repaints (styledict : pyval) (pg : Script.page) :
  Script.current_timestamp (snd (Script.fill_map styledict pg))
  = Script.current_timestamp pg ∧
  Script.slider (snd (Script.fill_map styledict pg)) = Script.slider pg ∧
  Script.slider_value_text (snd (Script.fill_map styledict pg))
  = Script.slider_value_text pg ∧
  Forall2 (λ el el', fst el' = fst el ∧
             Script.attr_fill_opacity (snd el') = Script.attr_fill_opacity (snd el) ∧
             Script.attr_stroke (snd el') = Script.attr_stroke (snd el) ∧
             Script.attr_stroke_width (snd el') = Script.attr_stroke_width (snd el) ∧
             Script.attr_stroke_dasharray (snd el')
             = Script.attr_stroke_dasharray (snd el))
    (Script.paths pg) (Script.paths (snd (Script.fill_map styledict pg))).
Proof.
  destruct (only_paths_fill_map styledict pg) as (Ht & Hs & Hx).
  split; [done|]. split; [done|]. split; [done|].
  apply (repaints_only_fill_map styledict pg).
Qed.

(** X4. Once the script has run, every drawn feature has one path, in the
    order drawn, with the id 'feature-' followed by the feature id, a white
    stroke of width 0.8 dashed "5,5", and the fill-opacity attribute 0 -
    whatever the first repaint did or threw. *)
Theorem load_baseline (timestamps : list string) (styledict : pyval) (i : Z)
    (datestring : option string → string)
    (drawn : list (string * Script.path)) :
  Forall2 (λ d el, fst el = Script.feature_element_id (fst d) ∧
             Script.attr_fill_opacity (snd el) = Some (PyNum 0) ∧
             Script.attr_stroke (snd el) = Some (PyStr "white") ∧
             Script.attr_stroke_width (snd el) = Some (PyNum (4 # 5)) ∧
             Script.attr_stroke_dasharray (snd el) = Some (PyStr "5,5"))
    drawn (Script.paths (Script.load timestamps styledict i datestring drawn)).
Proof.
  unfold Script.load, Script.script, mbind, Script.JS_bind. simpl.
  match goal with |- Forall2 _ _ (Script.paths (snd (Script.fill_map _ ?pg))) =>
    pose proof (repaints_only_fill_map styledict pg) as Hr; simpl in Hr end.
  revert Hr.
  generalize (Script.paths (snd (Script.fill_map styledict
    {| Script.current_timestamp := Script.initial_timestamp timestamps i;
       Script.slider := Some {| Script.attr_min := 0;
                                Script.attr_max := Z.of_nat (length timestamps) - 1;
                                Script.attr_value := Script.initial_timestamp timestamps i;
                                Script.attr_step := "1" |};
       Script.slider_value_text :=
         Some (datestring (Script.initial_timestamp timestamps i));
       Script.paths :=
         map (λ el, (fst el, Script.baseline (snd el)))
           (map (λ d, (Script.feature_element_id (fst d), snd d)) drawn) |}))).
  induction drawn as [|d drawn IH]; intros els Hr; simpl in Hr;
    inversion Hr as [|? el ? els' [Hid (H1 & H2 & H3 & H4)] Hr']; subst;
    constructor; [|by apply IH].
  simpl in *. by rewrite Hid, H1, H2, H3, H4.
Qed.

Section InputFacts.

Import Script.

#[local] Existing Instance JS_ret.
#[local] Existing Instance JS_bind.

(** The page the [input] handler repaints. *)
Lemma on_input_run (timestamps : list string) (items : list (string * pyval))
    (datestring : option string → string) (value : Z) (pg : page) :
  table_ok items (property_key (js_index timestamps value)) →
  on_input timestamps (PyDict items) datestring value pg
  = (inr tt,
     {| current_timestamp := js_index timestamps value;
        slider := slider pg;
        slider_value_text := Some (datestring (js_index timestamps value));
        paths := foldl (λ els k,
                          paint_feature items
                            (property_key (js_index timestamps value)) k els)
                   (paths pg) (items.*1) |}).
Proof.
  intros Hok. unfold on_input, mbind, JS_bind. simpl.
  by rewrite fill_map_fold.
Qed.

Lemma js_index_in_range (a : list string) (i : Z) :
  0 <= i < Z.of_nat (length a) → is_Some (js_index a i).
Proof.
  intros Hi. unfold js_index. destruct (Z.ltb_spec i 0); [lia|].
  apply lookup_lt_is_Some. lia.
Qed.

Lemma js_index_out_of_range (a : list string) (i : Z) :
  i < 0 ∨ Z.of_nat (length a) <= i → js_index a i = None.
Proof.
  intros Hi. unfold js_index. destruct (Z.ltb_spec i 0); [done|].
  apply lookup_ge_None. lia.
Qed.

Lemma initial_timestamp_resolved (timestamps : list string) (i : Z) :
  initial_timestamp timestamps i
  = js_index timestamps (resolved_index (Z.of_nat (length timestamps)) i).
Proof. unfold initial_timestamp, resolved_index. by destruct (0 <=? i). Qed.

End InputFacts.

(** X5. A slider input, whatever the style dictionary holds: the current
    timestamp becomes the element of [timestamps] at the slider's value, the
    date output shows the date of that timestamp, and the slider's attributes
    stay.  For a value from 0 to [len(timestamps) - 1] that timestamp is
    defined; for any other value it is [undefined]. *)
Theorem input_sets_timestamp (timestamps : list string) (styledict : pyval)
    (highlight : bool) (datestring : option string → string) (value : Z)
    (pg : Script.page) :
  Script.current_timestamp
    (Script.dispatch timestamps styledict highlight datestring
       (Script.Input value) pg) = Script.js_index timestamps value ∧
  Script.slider_value_text
    (Script.dispatch timestamps styledict highlight datestring
       (Script.Input value) pg)
  = Some (datestring (Script.js_index timestamps value)) ∧
  Script.slider
    (Script.dispatch timestamps styledict highlight datestring
       (Script.Input value) pg) = Script.slider pg ∧
  (0 <= value < Z.of_nat (length timestamps) ↔
   is_Some (Script.js_index timestamps value)).
Proof.
  unfold Script.dispatch. simpl. unfold Script.on_input, mbind, Script.JS_bind.
  simpl.
  match goal with |- context [Script.fill_map _ ?pg1] =>
    destruct (only_paths_fill_map styledict pg1) as (-> & -> & ->) end.
  simpl. split; [done|]. split; [done|]. split; [done|]. split.
  - apply js_index_in_range.
  - intros Hsome.
    destruct (Z.lt_ge_cases value 0) as [Hneg|Hnn].
    + rewrite js_index_out_of_range in Hsome by lia. by destruct Hsome.
    + destruct (Z.lt_ge_cases value (Z.of_nat (length timestamps))); [lia|].
      rewrite js_index_out_of_range in Hsome by lia. by destruct Hsome.
Qed.

(** X6. The first paint is the one of a slider input at the initial position:
    on the page the script leaves, an input event with the value the initial
    index stands for ([i], or [len(timestamps) + i] for a negative [i])
    changes nothing - on a style table where no read throws. *)
Theorem initial_paint_is_input (timestamps : list string)
    (items : list (string * pyval)) (i : Z) (highlight : bool)
    (datestring : option string → string) (drawn : list (string * Script.path)) :
  table_ok items (Script.property_key (Script.initial_timestamp timestamps i)) →
  Script.dispatch timestamps (PyDict items) highlight datestring
    (Script.Input (resolved_index (Z.of_nat (length timestamps)) i))
    (Script.load timestamps (PyDict items) i datestring drawn)
  = Script.load timestamps (PyDict items) i datestring drawn.
Proof.
  intros Hok. unfold Script.dispatch. simpl.
  rewrite on_input_run by (by rewrite <- initial_timestamp_resolved).
  rewrite <- initial_timestamp_resolved. simpl.
  unfold Script.load, Script.script, mbind, Script.JS_bind. simpl.
  rewrite fill_map_fold by done. simpl.
  unfold with_paths. simpl. by rewrite paint_fold_idem.
Qed.

Lemma initial_paint_is_input_witness :
  table_ok [("A", PyDict [("100", PyDict [("color", PyStr "red")])])]
    (Script.property_key (Script.initial_timestamp ["100"] (-1))) ∧
  Script.dispatch ["100"]
    (PyDict [("A", PyDict [("100", PyDict [("color", PyStr "red")])])]) true
    Example.datestring (Script.Input (resolved_index (Z.of_nat (length ["100"])) (-1)))
    (Script.load ["100"]
       (PyDict [("A", PyDict [("100", PyDict [("color", PyStr "red")])])]) (-1)
       Example.datestring [("A", Example.leaflet_path)])
  = Script.load ["100"]
      (PyDict [("A", PyDict [("100", PyDict [("color", PyStr "red")])])]) (-1)
      Example.datestring [("A", Example.leaflet_path)].
Proof.
  assert (table_ok [("A", PyDict [("100", PyDict [("color", PyStr "red")])])]
    (Script.property_key (Script.initial_timestamp ["100"] (-1)))) as Hok.
  { intros f v Hin. apply list_elem_of_singleton in Hin. injection Hin as -> ->.
    eexists. split; [reflexivity|]. simpl. discriminate. }
  split; [exact Hok|].
  exact (initial_paint_is_input ["100"] _ (-1) true Example.datestring
           [("A", Example.leaflet_path)] Hok).
Defined.

(** X7. A slider input repeated at the same value changes nothing the second
    time - on a style table where no read throws at that timestamp. *)
Theorem input_idempotent (timestamps : list string)
    (items : list (string * pyval)) (highlight : bool)
    (datestring : option string → string) (value : Z) (pg : Script.page) :
  table_ok items (Script.property_key (Script.js_index timestamps value)) →
  Script.dispatch timestamps (PyDict items) highlight datestring
    (Script.Input value)
    (Script.dispatch timestamps (PyDict items) highlight datestring
       (Script.Input value) pg)
  = Script.dispatch timestamps (PyDict items) highlight datestring
      (Script.Input value) pg.
Proof.
  intros Hok. unfold Script.dispatch. simpl.
  rewrite !on_input_run by done. simpl. by rewrite paint_fold_idem.
Qed.

Lemma input_idempotent_witness :
  table_ok [("A", PyDict [("100", PyDict [("color", PyStr "red")])])]
    (Script.property_key (Script.js_index ["100"] 0)) ∧
  Script.dispatch ["100"]
    (PyDict [("A", PyDict [("100", PyDict [("color", PyStr "red")])])]) true
    Example.datestring (Script.Input 0)
    (Script.dispatch ["100"]
       (PyDict [("A", PyDict [("100", PyDict [("color", PyStr "red")])])]) true
       Example.datestring (Script.Input 0) Script.blank)
  = Script.dispatch ["100"]
      (PyDict [("A", PyDict [("100", PyDict [("color", PyStr "red")])])]) true
      Example.datestring (Script.Input 0) Script.blank.
Proof.
  assert (table_ok [("A", PyDict [("100", PyDict [("color", PyStr "red")])])]
    (Script.property_key (Script.js_index ["100"] 0))) as Hok.
  { intros f v Hin. apply list_elem_of_singleton in Hin. injection Hin as -> ->.
    eexists. split; [reflexivity|]. simpl. discriminate. }
  split; [exact Hok|].
  exact (input_idempotent ["100"] _ true Example.datestring 0 Script.blank Hok).
Defined.

(** X8. What a slider input shows does not depend on what was shown before
    for the features that have an entry at the chosen timestamp: each of
    their paths gets the entry's colour as fill attribute and the entry's
    opacity as fill-opacity style property - on a style table as in X1. *)
Theorem input_shows_entries (timestamps : list string)
    (items : list (string * pyval)) (highlight : bool)
    (datestring : option string → string) (value : Z) (pg : Script.page)
    (i : nat) (feature_id : string) (p' : Script.path)
    (style : list (string * pyval)) (entry : pyval) :
  Forall (λ k, plain_id k = true) (items.*1) →
  own_only (Script.property_key (Script.js_index timestamps value)) = true →
  table_ok items (Script.property_key (Script.js_index timestamps value)) →
  Script.paths
    (Script.dispatch timestamps (PyDict items) highlight datestring
       (Script.Input value) pg) !! i
  = Some (Script.feature_element_id feature_id, p') →
  assoc feature_id items = Some (PyDict style) →
  assoc (Script.property_key (Script.js_index timestamps value)) style
  = Some entry →
  Script.attr_fill p' = Script.d3_value (entry_prop entry "color") ∧
  Script.style_fill_opacity p' = Script.d3_value (entry_prop entry "opacity").
Proof.
  intros _ _ Hok Hi Hs He. unfold Script.dispatch in Hi. simpl in Hi.
  rewrite on_input_run in Hi by done. simpl in Hi.
  destruct (Script.paths pg !! i) as [[id p]|] eqn:Hpg.
  - destruct (paint_fold_lookup items
                (Script.property_key (Script.js_index timestamps value))
                (items.*1) (Script.paths pg) i id p Hpg)
      as (q & Hq & Hin & _).
    rewrite Hq in Hi. injection Hi as -> ->.
    rewrite (Hin feature_id eq_refl); [|apply assoc_is_Some; by eexists].
    unfold paint_path. by rewrite Hs, He.
  - apply lookup_ge_None in Hpg.
    rewrite (proj2 (lookup_ge_None _ i)) in Hi; [done|].
    by rewrite paint_fold_length.
Qed.

Lemma input_shows_entries_witness :
  Forall (λ k, plain_id k = true) (Example.one_feature.*1) ∧
  own_only (Script.property_key (Script.js_index ["100"] 0)) = true ∧
  table_ok Example.one_feature
    (Script.property_key (Script.js_index ["100"] 0)) ∧
  Script.paths
    (Script.dispatch ["100"] (PyDict Example.one_feature) true Example.datestring
       (Script.Input 0) Example.one_path) !! 0%nat
  = Some (Script.feature_element_id "A",
          paint (PyDict [("color", PyStr "red"); ("opacity", PyNum (1 # 2))])
            Example.leaflet_path) ∧
  assoc "A" Example.one_feature
  = Some (PyDict [("100", PyDict [("color", PyStr "red");
                                  ("opacity", PyNum (1 # 2))])]) ∧
  assoc (Script.property_key (Script.js_index ["100"] 0))
    [("100", PyDict [("color", PyStr "red"); ("opacity", PyNum (1 # 2))])]
  = Some (PyDict [("color", PyStr "red"); ("opacity", PyNum (1 # 2))]) ∧
  Script.attr_fill
    (paint (PyDict [("color", PyStr "red"); ("opacity", PyNum (1 # 2))])
       Example.leaflet_path) = Some (PyStr "red").
Proof.
  assert (Forall (λ k, plain_id k = true) (Example.one_feature.*1)) as Hids
    by (repeat constructor).
  assert (table_ok Example.one_feature
    (Script.property_key (Script.js_index ["100"] 0))) as Hok.
  { intros f v Hin. apply list_elem_of_singleton in Hin. injection Hin as -> ->.
    eexists. split; [reflexivity|]. simpl. discriminate. }
  split; [exact Hids|]. split; [reflexivity|].
  split; [exact Hok|]. split; [reflexivity|]. split; [reflexivity|].
  split; [reflexivity|].
  exact (proj1 (input_shows_entries ["100"] Example.one_feature true
                  Example.datestring 0 Example.one_path 0 "A" _ _ _
                  Hids eq_refl Hok eq_refl eq_refl eq_refl)).
Defined.

(** X9. Every timestamp of every feature's mapping has a slider position:
    there is a value within the axis at which a slider input makes it the
    current timestamp. *)
Theorem every_timestamp_has_a_position (items : list (string * pyval))
    (feature_id : string) (style : list (string * pyval)) (t : string)
    (entry : pyval) (highlight : bool) (datestring : option string → string)
    (pg : Script.page) :
  (feature_id, PyDict style) ∈ items →
  (t, entry) ∈ style →
  ∃ value,
    0 <= value < Z.of_nat (length (timestamp_axis items)) ∧
    Script.current_timestamp
      (Script.dispatch (timestamp_axis items) (PyDict items) highlight
         datestring (Script.Input value) pg) = Some t.
Proof.
  intros Hf Ht.
  assert (t ∈ timestamp_axis items) as Hin.
  { apply elem_of_timestamp_axis, elem_of_timestamp_keys. eauto. }
  apply list_elem_of_lookup in Hin as [n Hn].
  exists (Z.of_nat n). split.
  - apply lookup_lt_Some in Hn. lia.
  - unfold Script.dispatch. simpl. rewrite on_input_current_timestamp.
    unfold Script.js_index. destruct (Z.ltb_spec (Z.of_nat n) 0); [lia|].
    by rewrite Nat2Z.id.
Qed.

Lemma every_timestamp_has_a_position_witness :
  ("A", PyDict [("100", PyDict [("color", PyStr "red");
                                ("opacity", PyNum (1 # 2))])])
    ∈ Example.one_feature ∧
  ("100", PyDict [("color", PyStr "red"); ("opacity", PyNum (1 # 2))])
    ∈ [("100", PyDict [("color", PyStr "red"); ("opacity", PyNum (1 # 2))])] ∧
  ∃ value,
    0 <= value < Z.of_nat (length (timestamp_axis Example.one_feature)) ∧
    Script.current_timestamp
      (Script.dispatch (timestamp_axis Example.one_feature)
         (PyDict Example.one_feature) true Example.datestring
         (Script.Input value) Example.one_path) = Some "100".
Proof.
  assert (("A", PyDict [("100", PyDict [("color", PyStr "red");
                                        ("opacity", PyNum (1 # 2))])])
            ∈ Example.one_feature) as H1 by (apply list_elem_of_singleton; reflexivity).
  assert (("100", PyDict [("color", PyStr "red"); ("opacity", PyNum (1 # 2))])
            ∈ [("100", PyDict [("color", PyStr "red"); ("opacity", PyNum (1 # 2))])])
    as H2 by (apply list_elem_of_singleton; reflexivity).
  split; [exact H1|]. split; [exact H2|].
  exact (every_timestamp_has_a_position Example.one_feature "A" _ "100" _ true
           Example.datestring Example.one_path H1 H2).
Defined.

Section LoopFacts.

Import Script.

#[local] Existing Instance JS_ret.
#[local] Existing Instance JS_bind.

(** A loop throws when one of its rounds throws on every page the loop can
    reach. *)
Lemma for_in_throws (ks : list string) (body : string → JS unit) (k0 : string)
    (P : page → Prop) :
  k0 ∈ ks →
  (∀ k pg, P pg → P (snd (body k pg))) →
  (∀ pg, P pg → fst (body k0 pg) = inl TypeError) →
  ∀ pg, P pg → fst (for_in ks body pg) = inl TypeError.
Proof.
  intros Hin Hkeep Hthrow.
  induction ks as [|k ks IH]; intros pg HP; [by apply elem_of_nil in Hin|].
  simpl. unfold mbind, JS_bind.
  destruct (decide (k = k0)) as [->|Hne].
  - specialize (Hthrow pg HP). by destruct (body k0 pg) as [[[]|[]] pg1].
  - specialize (Hkeep k pg HP).
    destruct (body k pg) as [[[]|[]] pg1]; [done|].
    apply IH; [|done]. by apply elem_of_cons in Hin as [?|?].
Qed.

End LoopFacts.

(** X12. A [null] entry at the current timestamp makes the repaint throw:
    when some feature of the style dictionary maps the current timestamp to
    [null], [fill_map] ends with a [TypeError], raised by the first property
    read that meets [null]. *)
Theorem fill_map_null_entry_throws (items : list (string * pyval))
    (feature_id : string) (style : list (string * pyval)) (pg : Script.page) :
  assoc feature_id items = Some (PyDict style) →
  assoc (Script.property_key (Script.current_timestamp pg)) style = Some PyNone →
  fst (Script.fill_map (PyDict items) pg) = inl Script.TypeError.
Proof.
  intros Hs Hnull. unfold Script.fill_map. simpl Script.js_keys.
  apply (for_in_throws _ _ feature_id
           (λ pg', Script.current_timestamp pg' = Script.current_timestamp pg)).
  - apply assoc_is_Some. by eexists.
  - intros k pg' <-.
    match goal with |- Script.current_timestamp (snd (?m pg')) = _ =>
      assert (Script.only_paths m) as Hm end.
    { apply only_paths_bind; [apply only_paths_lift|intros st].
      apply only_paths_bind; [apply only_paths_read|intros t].
      apply only_paths_bind; [apply only_paths_lift|intros [|]];
        [|apply only_paths_ret].
      repeat (apply only_paths_bind; [apply only_paths_lift|intros ?]).
      apply only_paths_write_paths. }
    by destruct (Hm pg') as (-> & _).
  - intros pg' Hpg'. rewrite (fill_round_null items style); [done..|].
    by rewrite Hpg'.
  - done.
Qed.

Lemma fill_map_null_entry_throws_witness :
  assoc "B" [("B", PyDict [("100", PyNone)])] = Some (PyDict [("100", PyNone)]) ∧
  assoc (Script.property_key (Some "100")) [("100", PyNone)] = Some PyNone ∧
  fst (Script.fill_map (PyDict [("B", PyDict [("100", PyNone)])])
         {| Script.current_timestamp := Some "100"; Script.slider := None;
            Script.slider_value_text := None; Script.paths := [] |})
  = inl Script.TypeError.
Proof.
  split; [reflexivity|]. split; [reflexivity|].
  exact (fill_map_null_entry_throws [("B", PyDict [("100", PyNone)])] "B"
           [("100", PyNone)]
           {| Script.current_timestamp := Some "100"; Script.slider := None;
              Script.slider_value_text := None; Script.paths := [] |}
           eq_refl eq_refl).
Defined.

(** * More about the constructor *)

(** X13. The constructor completes exactly on a dictionary of dictionaries
    with [-len(timestamps) <= init_timestamp_index < len(timestamps)]; it then
    has stored the derived axis, the style dictionary as given, the highlight
    flag and the index. *)
Theorem init_accepts_iff (repr : pyval → string) (styledict : pyval) (i : Z)
    (highlight : bool) :
  (fst (Python.__init__ repr styledict i highlight Python.fresh) = inr tt ↔
   ∃ items, styledict = PyDict items ∧
     Forall (λ v, isinstance_dict v = true) (items.*2) ∧
     - Z.of_nat (length (timestamp_axis items)) <= i
       < Z.of_nat (length (timestamp_axis items))) ∧
  (∀ items, styledict = PyDict items →
     fst (Python.__init__ repr styledict i highlight Python.fresh) = inr tt →
     snd (Python.__init__ repr styledict i highlight Python.fresh)
     = {| Python.self_timestamps := Some (timestamp_axis items);
          Python.self_styledict := Some (PyDict items);
          Python.self_highlight := Some highlight;
          Python.self_init_timestamp_index := Some i;
          Python.timestamps := Python.BoundList (timestamp_axis items) |}).
Proof.
  assert (fst (Python.__init__ repr styledict i highlight Python.fresh) = inr tt →
          ∃ items, styledict = PyDict items ∧
            Forall (λ v, isinstance_dict v = true) (items.*2)) as Hshape.
  { destruct (isinstance_dict styledict) eqn:Hd.
    - destruct styledict as [| | | |items]; try done. intros Hacc.
      exists items. split; [done|]. apply find_not_dict_none.
      destruct (find _ _) as [v|] eqn:Hf; [|done].
      by rewrite (init_item_not_a_dict repr items v) in Hacc.
    - by rewrite init_not_a_dict. }
  split; [split|].
  - intros Hacc. destruct (Hshape Hacc) as (items & -> & Hall).
    exists items. split; [done|]. split; [done|].
    by apply (init_completes repr items i highlight).
  - intros (items & -> & Hall & Hi). by apply init_completes.
  - intros items -> Hacc. destruct (Hshape Hacc) as (items' & [= <-] & Hall).
    pose proof (proj1 (init_completes repr items i highlight Hall) Hacc) as Hi.
    rewrite init_valid by done.
    destruct (Z.leb_spec 0 i).
    + destruct (Z.ltb_spec i (Z.of_nat (length (timestamp_axis items))));
        [done|lia].
    + destruct (Z.leb_spec (- Z.of_nat (length (timestamp_axis items))) i);
        [done|lia].
Qed.

(** X14. A style dictionary whose features all map to empty dictionaries has
    an empty axis, and the constructor raises at the range check for every
    index. *)
Theorem init_no_timestamps (repr : pyval → string)
    (items : list (string * pyval)) (i : Z) (highlight : bool) :
  Forall (λ v, v = PyDict []) (items.*2) →
  timestamp_axis items = [] ∧
  Python.__init__ repr (PyDict items) i highlight Python.fresh
  = (inl (Python.AssertionError
            (if 0 <=? i then Python.index_too_large_msg i 0
             else Python.index_too_small_msg i)),
     built items highlight).
Proof.
  intros Hall.
  assert (timestamp_keys items = ∅) as Hkeys.
  { apply set_eq. intros t. rewrite elem_of_timestamp_keys. split.
    - intros (fid & feature & entry & Hin & Ht).
      rewrite Forall_forall in Hall.
      assert (PyDict feature = PyDict []) as [= ->].
      { apply Hall. apply list_elem_of_fmap. by exists (fid, PyDict feature). }
      by apply elem_of_nil in Ht.
    - by intros ?%not_elem_of_empty. }
  assert (timestamp_axis items = []) as Haxis.
  { unfold timestamp_axis. by rewrite Hkeys, elements_empty. }
  split; [done|].
  rewrite init_valid by (eapply Forall_impl; [exact Hall|by intros ? ->]).
  rewrite Haxis. simpl. change (Z.of_nat 0) with 0. change (- 0) with 0.
  destruct (Z.leb_spec 0 i).
  - destruct (Z.ltb_spec i 0); [lia|reflexivity].
  - reflexivity.
Qed.

Lemma init_no_timestamps_witness :
  Forall (λ v, v = PyDict []) [("A", PyDict []); ("B", PyDict [])].*2 ∧
  fst (Python.__init__ Example.repr (PyDict [("A", PyDict []); ("B", PyDict [])])
         0 true Python.fresh)
  = inl (Python.AssertionError (Python.index_too_large_msg 0 0)).
Proof.
  assert (Forall (λ v, v = PyDict []) [("A", PyDict []); ("B", PyDict [])].*2)
    as Hall by (repeat constructor).
  split; [exact Hall|].
  exact (f_equal fst
    (proj2 (init_no_timestamps Example.repr [("A", PyDict []); ("B", PyDict [])]
              0 true Hall))).
Defined.

(** X15. The range input the script inserts, for any axis and initial index:
    [min] is 0, [max] is [len(timestamps) - 1], [step] is "1", and the
    [value] attribute is given the initial timestamp itself - the element of
    the axis at the position the index stands for, or no value when there is
    none. *)
Theorem slider_attributes (timestamps : list string) (styledict : pyval) (i : Z)
    (datestring : option string → string)
    (drawn : list (string * Script.path)) :
  Script.slider (Script.load timestamps styledict i datestring drawn)
  = Some {| Script.attr_min := 0;
            Script.attr_max := Z.of_nat (length timestamps) - 1;
            Script.attr_value :=
              Script.js_index timestamps
                (resolved_index (Z.of_nat (length timestamps)) i);
            Script.attr_step := "1" |} ∧
  Script.current_timestamp (Script.load timestamps styledict i datestring drawn)
  = Script.js_index timestamps (resolved_index (Z.of_nat (length timestamps)) i).
Proof.
  rewrite load_slider, initial_timestamp_resolved. split; [done|].
  unfold Script.load, Script.script, mbind, Script.JS_bind. simpl.
  match goal with |- Script.current_timestamp (snd (Script.fill_map _ ?pg)) = _ =>
    destruct (only_paths_fill_map styledict pg) as (-> & _) end.
  simpl. apply initial_timestamp_resolved.
Qed.

